(** * topcoder-api-helper: a shallow embedding of [src/utils/topcoder-api-helper.js]

    The module is a thin asynchronous client: it keeps one module-level
    variable ([cachedAccessToken]), talks to three collaborators (the HTTP
    client [axios], the machine-token issuer [m2m] and the two loggers) and
    raises JavaScript exceptions.  The embedding is a state-and-exception
    monad over a [World] that records the cache, the clock, the calls made to
    the collaborators and the log lines written. *)

From Stdlib Require Import ZArith List String Ascii Bool Lia DecimalString.
Import ListNotations.
Set Warnings "-register-all".
Local Open Scope string_scope.
Local Open Scope Z_scope.
Local Open Scope list_scope.

(** ** JavaScript values *)

Module Js.

(** JSON-like values.  Numbers are integers (the module only handles ids,
    status codes and millisecond clocks); objects are association lists in
    insertion order, the first binding of a key being the visible one. *)
Inductive JsVal : Type :=
| JUndefined
| JNull
| JBool (b : bool)
| JNum (n : Z)
| JStr (s : string)
| JArr (items : list JsVal)
| JObj (fields : list (string * JsVal)).

Definition cat (pieces : list string) : string := String.concat EmptyString pieces.

Definition string_of_Z (n : Z) : string := NilZero.string_of_int (Z.to_int n).

(** [ToString], as applied by template literals [`${v}`]. *)
Fixpoint ToString (v : JsVal) : string :=
  match v with
  | JUndefined => "undefined"
  | JNull => "null"
  | JBool true => "true"
  | JBool false => "false"
  | JNum n => string_of_Z n
  | JStr s => s
  | JObj _ => "[object Object]"
  | JArr items =>
      let elem (x : JsVal) : string :=
        match x with
        | JUndefined | JNull => EmptyString
        | _ => ToString x
        end in
      String.concat "," (map elem items)
  end.

(** Truthiness: [if (v)], [!v], [v ? a : b]. *)
Definition truthy (v : JsVal) : bool :=
  match v with
  | JUndefined | JNull => false
  | JBool b => b
  | JNum n => negb (n =? 0)
  | JStr s => negb (String.eqb s EmptyString)
  | JArr _ | JObj _ => true
  end.

Definition nullish (v : JsVal) : bool :=
  match v with
  | JUndefined | JNull => true
  | _ => false
  end.

Fixpoint assoc (k : string) (fields : list (string * JsVal)) : option JsVal :=
  match fields with
  | [] => None
  | (k', v) :: rest => if String.eqb k k' then Some v else assoc k rest
  end.

(** The value of [v.k] for a [v] that is neither [undefined] nor [null].
    The property names read by the module ([data], [iat], [roleId],
    [message], ...) are own properties of plain objects only; on any other
    value they read as [undefined]. *)
Definition field (v : JsVal) (k : string) : JsVal :=
  match v with
  | JObj fields =>
      match assoc k fields with
      | Some x => x
      | None => JUndefined
      end
  | _ => JUndefined
  end.

(** lodash [_.get(v, 'k1.k2...')]: stops with [undefined] as soon as the
    value walked is [undefined] or [null]. *)
Fixpoint lodash_get (v : JsVal) (path : list string) : JsVal :=
  match path with
  | [] => v
  | k :: rest => if nullish v then JUndefined else lodash_get (field v k) rest
  end.

(** Strict equality [a === b].  Primitives compare by type and value.  Two
    objects (or arrays) are equal only when they are the same reference; the
    operands compared by the module are a caller's argument and a property of
    a freshly parsed response body, which never share a reference. *)
Definition strict_eq (a b : JsVal) : bool :=
  match a, b with
  | JUndefined, JUndefined => true
  | JNull, JNull => true
  | JBool x, JBool y => Bool.eqb x y
  | JNum x, JNum y => x =? y
  | JStr x, JStr y => String.eqb x y
  | _, _ => false
  end.

(** lodash [_.set] on an object key. *)
Fixpoint set_field (k : string) (x : JsVal) (fields : list (string * JsVal))
  : list (string * JsVal) :=
  match fields with
  | [] => [(k, x)]
  | (k', v) :: rest =>
      if String.eqb k k' then (k', x) :: rest else (k', v) :: set_field k x rest
  end.

(** lodash [_.assign(target, source)] on the fields of two plain objects:
    every own key of [source], in order, is written into [target]. *)
Definition assign (target source : list (string * JsVal)) : list (string * JsVal) :=
  fold_left (fun acc kv => set_field (fst kv) (snd kv) acc) source target.

Definition chars (s : string) : list JsVal :=
  map (fun c => JStr (String c EmptyString)) (list_ascii_of_string s).

(** lodash [_.map(collection, f)]: arrays by element, strings by character,
    plain objects by value, anything else is an empty collection. *)
Definition lodash_map (collection : JsVal) (f : JsVal -> JsVal) : list JsVal :=
  match collection with
  | JArr items => map f items
  | JObj fields => map (fun kv => f (snd kv)) fields
  | JStr s => map f (chars s)
  | _ => []
  end.

(** [new TypeError(msg)] and [new Error(msg)] as thrown values. *)
Definition TypeError (msg : string) : JsVal :=
  JObj [("name", JStr "TypeError"); ("message", JStr msg)].

Definition Error (msg : string) : JsVal :=
  JObj [("name", JStr "Error"); ("message", JStr msg)].

Definition cannot_read (k : string) (v : JsVal) : JsVal :=
  TypeError (cat ["Cannot read property '"; k; "' of "; ToString v]).

End Js.
Import Js.

(** ** Configuration, collaborators and the world *)

(** The values read from [config] (npm [config] package, read-only). *)
Record Config : Type := {
  TC_AUTHN_URL : string;
  TC_AUTHN_REQUEST_BODY : JsVal;
  TC_AUTHZ_URL : string;
  TC_API_URL : string;
  TC_API_URL_V3 : string;
  AUTH0_CLIENT_ID : JsVal;
  AUTH0_CLIENT_SECRET : JsVal;
  NEW_CHALLENGE_TEMPLATE : list (string * JsVal);
  TYPE_ID_FIRST2FINISH : JsVal;
  DEFAULT_TIMELINE_TEMPLATE_ID : JsVal;
  ROLE_ID_SUBMITTER : JsVal
}.

(** One call of the HTTP client, with the arguments as the source passes
    them; an argument that is not passed is [JUndefined]. *)
Inductive AxiosCall : Type :=
| axios_post (url : string) (data config : JsVal)
| axios_patch (url : string) (data config : JsVal)
| axios_get (url : string) (config : JsVal)
| axios_delete (url : string) (config : JsVal).

(** Calls to the collaborators that cross the process boundary. *)
Inductive Call : Type :=
| MachineTokenCall (clientId clientSecret : JsVal)
| HttpCall (c : AxiosCall).

(** What [axios] resolves with; the module reads [status] and [data] only. *)
Record Response : Type := { status : JsVal; data : JsVal }.

Definition as_object (r : Response) : JsVal :=
  JObj [("status", status r); ("data", data r)].

Inductive Logger : Type := logger | loggerFile.
Inductive Level : Type := debug | info | error.

(** The behaviour of everything outside the module.  A collaborator answers
    from the history of calls made so far; [inl e] is a rejection with the
    thrown value [e].  The issuer resolves with the token string. *)
Record Env : Type := {
  axios : list Call -> AxiosCall -> JsVal + Response;
  getMachineToken : list Call -> JsVal -> JsVal -> JsVal + string;
  jwtDecode : JsVal -> JsVal + JsVal;
  JSON_stringify : JsVal -> string;
  circularJSON_stringify : JsVal -> string;
  (** [ToNumber] on a string; [None] is [NaN]. *)
  StringToNumber : string -> option Z
}.

Record World : Type := {
  cachedAccessToken : JsVal;      (* [let cachedAccessToken;] *)
  clock : Z;                      (* what [new Date().getTime()] reads *)
  calls : list Call;              (* oldest first *)
  logs : list (Logger * Level * string)
}.

Definition set_cache (t : JsVal) (w : World) : World :=
  {| cachedAccessToken := t; clock := clock w; calls := calls w; logs := logs w |}.

Definition add_call (c : Call) (w : World) : World :=
  {| cachedAccessToken := cachedAccessToken w; clock := clock w;
     calls := calls w ++ [c]; logs := logs w |}.

Definition add_log (l : Logger * Level * string) (w : World) : World :=
  {| cachedAccessToken := cachedAccessToken w; clock := clock w;
     calls := calls w; logs := logs w ++ [l] |}.

(** ** The monad of asynchronous functions: state and exceptions *)

Inductive Result (A : Type) : Type :=
| Return (a : A)
| Throw (e : JsVal).
Arguments Return {A} a.
Arguments Throw {A} e.

Definition M (A : Type) : Type := World -> Result A * World.

Definition ret {A} (a : A) : M A := fun w => (Return a, w).

Definition throw {A} (e : JsVal) : M A := fun w => (Throw e, w).

Definition bind {A B} (m : M A) (k : A -> M B) : M B :=
  fun w =>
    match m w with
    | (Return a, w') => k a w'
    | (Throw e, w') => (Throw e, w')
    end.

(** [try { body } catch (err) { handler }] *)
Definition try_catch {A} (body : M A) (handler : JsVal -> M A) : M A :=
  fun w =>
    match body w with
    | (Return a, w') => (Return a, w')
    | (Throw e, w') => handler e w'
    end.

Declare Scope js_scope.
Delimit Scope js_scope with js.
Notation "x <- m ;; k" := (bind m (fun x => k))
  (at level 100, m at next level, right associativity) : js_scope.
Notation "m ;; k" := (bind m (fun _ => k))
  (at level 100, right associativity) : js_scope.
Local Open Scope js_scope.

(** [v.k]: a [TypeError] when [v] is [undefined] or [null]. *)
Definition prop {A} (v : JsVal) (k : string) (cont : JsVal -> M A) : M A :=
  if nullish v then throw (cannot_read k v) else cont (field v k).

Definition log (lg : Logger) (lvl : Level) (msg : string) : M unit :=
  fun w => (Return tt, add_log (lg, lvl, msg) w).

Section Helper.

Variable config : Config.
Variable env : Env.

(** [ToNumber], as applied by the relational operators. *)
Definition ToNumber (v : JsVal) : option Z :=
  match v with
  | JUndefined => None
  | JNull => Some 0
  | JBool b => Some (if b then 1 else 0)
  | JNum n => Some n
  | JStr _ | JArr _ | JObj _ => StringToNumber env (ToString v)
  end.

(** [v > n] for a number [n]: false when [v] converts to [NaN]. *)
Definition gt_number (v : JsVal) (n : Z) : bool :=
  match ToNumber v with
  | Some x => n <? x
  | None => false
  end.

Definition await_axios (c : AxiosCall) : M Response :=
  fun w =>
    match axios env (calls w) c with
    | inr r => (Return r, add_call (HttpCall c) w)
    | inl e => (Throw e, add_call (HttpCall c) w)
    end.

Definition await_getMachineToken (clientId clientSecret : JsVal) : M string :=
  fun w =>
    match getMachineToken env (calls w) clientId clientSecret with
    | inr t => (Return t, add_call (MachineTokenCall clientId clientSecret) w)
    | inl e => (Throw e, add_call (MachineTokenCall clientId clientSecret) w)
    end.

Definition call_jwtDecode (token : JsVal) : M JsVal :=
  match jwtDecode env token with
  | inr decoded => ret decoded
  | inl e => throw e
  end.

Definition Date_getTime : M Z := fun w => (Return (clock w), w).

Definition read_cachedAccessToken : M JsVal :=
  fun w => (Return (cachedAccessToken w), w).

Definition write_cachedAccessToken (t : JsVal) : M unit :=
  fun w => (Return tt, set_cache t w).

(** ** Token provider *)

Definition authn_call : AxiosCall :=
  axios_post (TC_AUTHN_URL config) (TC_AUTHN_REQUEST_BODY config) JUndefined.

Definition authz_call (v2IdToken v2RefreshToken : JsVal) : AxiosCall :=
  axios_post (TC_AUTHZ_URL config)
    (JObj [("param", JObj [("externalToken", v2IdToken);
                           ("refreshToken", v2RefreshToken)])])
    (JObj [("headers",
            JObj [("authorization", JStr (cat ["Bearer "; ToString v2IdToken]))])]).

(** Lines 39-45: is the cached token present and "still not expired"? *)
Definition cached_token_usable : M bool :=
  cached <- read_cachedAccessToken ;;
  if truthy cached then
    decoded <- call_jwtDecode cached ;;
    prop decoded "iat" (fun iat =>
    now <- Date_getTime ;;
    ret (gt_number iat now))
  else ret false.

Definition getAccessToken : M JsVal :=
  usable <- cached_token_usable ;;
  if usable then
    read_cachedAccessToken
  else
    v2Response <- await_axios authn_call ;;
    let v2IdToken := lodash_get (as_object v2Response) ["data"; "id_token"] in
    let v2RefreshToken := lodash_get (as_object v2Response) ["data"; "refresh_token"] in
    if negb (truthy v2IdToken) || negb (truthy v2RefreshToken) then
      throw (Error (cat ["cannot authenticate with topcoder: "; TC_AUTHN_URL config]))
    else
      v3Response <- await_axios (authz_call v2IdToken v2RefreshToken) ;;
      write_cachedAccessToken
        (lodash_get (as_object v3Response) ["data"; "result"; "content"; "token"]) ;;
      cached <- read_cachedAccessToken ;;
      if negb (truthy cached) then
        throw (Error (cat ["cannot authorize with topcoder: "; TC_AUTHZ_URL config]))
      else
        read_cachedAccessToken.

(** The error raised on line 53; the spec's [AuthenticationError]. *)
Definition AuthenticationError : JsVal :=
  Error (cat ["cannot authenticate with topcoder: "; TC_AUTHN_URL config]).

(** The error raised on line 72; the spec's [AuthorizationError]. *)
Definition AuthorizationError : JsVal :=
  Error (cat ["cannot authorize with topcoder: "; TC_AUTHZ_URL config]).

Definition getM2Mtoken : M string :=
  await_getMachineToken (AUTH0_CLIENT_ID config) (AUTH0_CLIENT_SECRET config).

(** ** Error normalization *)

(** Modelled from the spec: [./errors], the module that defines
    [convertTopcoderApiError], is not among the sources.  Section 4.3: given
    the thrown error and a description, it produces one normalized error (kind
    tag, human message, wrapped cause) and never throws itself. *)
Definition convertTopcoderApiError (err : JsVal) (message : string) : JsVal :=
  JObj [("name", JStr "UpstreamRequestError"); ("message", JStr message); ("cause", err)].

(** ** Request executor: the endpoint operations *)

Definition NL : string := String (ascii_of_nat 10) EmptyString.

Definition bearer_json_headers (apiKey : string) : JsVal :=
  JObj [("headers", JObj [("authorization", JStr (cat ["Bearer "; apiKey]));
                          ("Content-Type", JStr "application/json")])].

(** [response.status ? response.status : null] *)
Definition status_or_null (response : Response) : JsVal :=
  if truthy (status response) then status response else JNull.

(** [logger.error(`${err.message}`)] *)
Definition log_err_message (err : JsVal) : M unit :=
  prop err "message" (fun m => log logger error (ToString m)).

(** [logger.error(`Request: ${JSON.stringify(err.config)}`)] *)
Definition log_err_request (err : JsVal) : M unit :=
  prop err "config" (fun c => log logger error (cat ["Request: "; JSON_stringify env c])).

(** [logger.error(`Response Data: ${JSON.stringify(err.response.data)}`)] *)
Definition log_err_response_data (err : JsVal) : M unit :=
  prop err "response" (fun r =>
  prop r "data" (fun d =>
  log logger error (cat ["Response Data: "; JSON_stringify env d]))).

Definition createProject (projectName : JsVal) : M JsVal :=
  apiKey <- getM2Mtoken ;;
  try_catch
    (response <- await_axios
       (axios_post (cat [TC_API_URL config; "/projects"])
          (JObj [("name", projectName)]) (bearer_json_headers apiKey)) ;;
     let statusCode := status_or_null response in
     log loggerFile info
       (cat ["EndPoint: POST /projects,  POST parameters: ";
             circularJSON_stringify env (JObj [("name", projectName)]); ","; NL;
             "    Status Code:"; ToString statusCode; ", Response: ";
             circularJSON_stringify env (data response)]) ;;
     ret (lodash_get (as_object response) ["data"; "id"]))
    (fun err =>
     log loggerFile info
       (cat ["EndPoint: POST /direct/projects, POST parameters: ";
             circularJSON_stringify env (JObj [("name", projectName)]); ","; NL;
             "    Status Code:null, Error: 'Failed to create project.', Details: ";
             circularJSON_stringify env err]) ;;
     throw (convertTopcoderApiError err "Failed to create project.")).

Definition createChallenge (challenge : JsVal) : M JsVal :=
  apiKey <- getM2Mtoken ;;
  prop challenge "name" (fun name =>
  prop challenge "detailedRequirements" (fun detailedRequirements =>
  prop challenge "prizes" (fun prizes =>
  prop challenge "projectId" (fun projectId =>
  let body := JObj (assign (assign [] (NEW_CHALLENGE_TEMPLATE config))
    [("typeId", TYPE_ID_FIRST2FINISH config);
     ("name", name);
     ("description", detailedRequirements);
     ("prizeSets",
      JArr [JObj [("type", JStr "Challenge prizes");
                  ("prizes",
                   JArr (lodash_map prizes
                     (fun prize => JObj [("type", JStr "money"); ("value", prize)])))]]);
     ("timelineTemplateId", DEFAULT_TIMELINE_TEMPLATE_ID config);
     ("projectId", projectId)]) in
  try_catch
    (response <- await_axios
       (axios_post (cat [TC_API_URL config; "/challenges"]) body
          (bearer_json_headers apiKey)) ;;
     let statusCode := status_or_null response in
     log logger debug
       (cat ["EndPoint: POST /challenges,  POST parameters: ";
             circularJSON_stringify env body; ","; NL;
             "    Status Code:"; ToString statusCode; ", Response: ";
             circularJSON_stringify env (data response)]) ;;
     ret (lodash_get (as_object response) ["data"; "id"]))
    (fun err =>
     log logger debug
       (cat ["EndPoint: POST /challenges,  POST parameters: ";
             circularJSON_stringify env body; ", Status Code:null,"; NL;
             "    Error: 'Failed to create challenge.', Details: ";
             circularJSON_stringify env err]) ;;
     throw (convertTopcoderApiError err "Failed to create challenge.")))))).

Definition updateChallenge (id challenge : JsVal) : M JsVal :=
  apiKey <- getM2Mtoken ;;
  log logger debug
    (cat ["Updating challenge "; ToString id; " with ";
          circularJSON_stringify env challenge]) ;;
  try_catch
    (response <- await_axios
       (axios_patch (cat [TC_API_URL config; "/challenges/"; ToString id]) challenge
          (bearer_json_headers apiKey)) ;;
     let statusCode := status_or_null response in
     log logger debug
       (cat ["EndPoint: PATCH /challenges/"; ToString id; ",  PATCH parameters: ";
             circularJSON_stringify env challenge; ","; NL;
             "    Status Code:"; ToString statusCode; ", Response: ";
             circularJSON_stringify env (data response)]) ;;
     ret JUndefined)
    (fun err =>
     log logger error "updateChallenge ERROR." ;;
     log logger error (cat ["EndPoint: PATCH /challenges/"; ToString id]) ;;
     log_err_message err ;;
     log_err_request err ;;
     log_err_response_data err ;;
     log loggerFile info
       (cat ["EndPoint: PATCH /challenges/"; ToString id;
             ",  PATCH parameters: null, Status Code:null,"; NL;
             "    Error: 'Failed to update challenge.', Details: ";
             circularJSON_stringify env err]) ;;
     throw (convertTopcoderApiError err "Failed to update challenge.")).

Definition activateChallenge (id : JsVal) : M JsVal :=
  apiKey <- getM2Mtoken ;;
  log logger debug (cat ["Activating challenge "; ToString id]) ;;
  try_catch
    (response <- await_axios
       (axios_patch (cat [TC_API_URL config; "/challenges/"; ToString id])
          (JObj [("status", JStr "Active")]) (bearer_json_headers apiKey)) ;;
     let statusCode := status_or_null response in
     log loggerFile info
       (cat ["EndPoint: PATCH /challenges/"; ToString id; ","; NL;
             "    PATCH parameters: { status: 'Active' }, Status Code:";
             ToString statusCode; ", Response: ";
             circularJSON_stringify env (data response)]) ;;
     log logger debug (cat ["Challenge "; ToString id; " is activated successfully."]) ;;
     ret JUndefined)
    (fun err =>
     log logger error "activateChallenge ERROR." ;;
     log logger error (cat ["EndPoint: PATCH /challenges/"; ToString id]) ;;
     log_err_message err ;;
     log_err_request err ;;
     log_err_response_data err ;;
     log loggerFile info
       (cat ["EndPoint: PATCH /challenges/"; ToString id;
             ",  PATCH parameters: { status: 'Active' }, Status Code:null,"; NL;
             "    Error: 'Failed to activate challenge.', Details: ";
             circularJSON_stringify env err]) ;;
     throw (convertTopcoderApiError err "Failed to activate challenge.")).

Definition getChallengeById (id : JsVal) : M JsVal :=
  apiKey <- getM2Mtoken ;;
  log logger debug "Getting topcoder challenge details" ;;
  try_catch
    (response <- await_axios
       (axios_get (cat [TC_API_URL config; "/challenges/"; ToString id])
          (JObj [("headers", JObj [("authorization", JStr (cat ["Bearer "; apiKey]))]);
                 ("Content-Type", JStr "application/json")])) ;;
     let challenge := lodash_get (as_object response) ["data"] in
     let statusCode := status_or_null response in
     log loggerFile info
       (cat ["EndPoint: GET challenges/"; ToString id;
             ",  GET parameters: null, Status Code:"; ToString statusCode;
             ", Response: "; circularJSON_stringify env (data response)]) ;;
     ret challenge)
    (fun err =>
     log logger error "getChallengeById ERROR." ;;
     log logger error (cat ["EndPoint: GET challenges/"; ToString id]) ;;
     log_err_message err ;;
     log_err_request err ;;
     log_err_response_data err ;;
     log logger error (JSON_stringify env err) ;;
     throw (convertTopcoderApiError err "Failed to get challenge details by Id")).

Definition closeChallenge (id winnerId winnerUsername : JsVal) : M JsVal :=
  apiKey <- getM2Mtoken ;;
  log logger debug (cat ["Closing challenge "; ToString id]) ;;
  try_catch
    (response <- await_axios
       (axios_patch (cat [TC_API_URL config; "/challenges/"; ToString id])
          (JObj [("status", JStr "Completed");
                 ("winners", JArr [JObj [("userId", winnerId);
                                         ("handle", winnerUsername);
                                         ("placement", JNum 1)]])])
          (bearer_json_headers apiKey)) ;;
     let statusCode := status_or_null response in
     log logger debug
       (cat ["EndPoint: PATCH /challenges/"; ToString id; ","; NL;
             "    PATCH parameters: { status: 'Completed' }, Status Code:";
             ToString statusCode; ", Response: ";
             circularJSON_stringify env (data response)]) ;;
     log logger debug (cat ["Challenge "; ToString id; " is closed successfully."]) ;;
     ret JUndefined)
    (fun err =>
     log logger error "Closing challenge ERROR." ;;
     log logger error (cat ["EndPoint: PATCH /challenges/"; ToString id]) ;;
     log_err_message err ;;
     log_err_request err ;;
     log_err_response_data err ;;
     log logger error
       (cat ["EndPoint: PATCH /challenges/"; ToString id;
             ",  PATCH parameters: { status: 'Completed' }, Status Code:null,"; NL;
             "    Error: 'Failed to close challenge.', Details: ";
             circularJSON_stringify env err]) ;;
     throw (convertTopcoderApiError err "Failed to close challenge.")).

Definition getProjectBillingAccountId (id : JsVal) : M JsVal :=
  apiKey <- getM2Mtoken ;;
  log logger debug (cat ["Getting project billing detail "; ToString id]) ;;
  try_catch
    (response <- await_axios
       (axios_get (cat [TC_API_URL config; "/projects/"; ToString id])
          (JObj [("headers", JObj [("authorization", JStr (cat ["Bearer "; apiKey]))])])) ;;
     let billingAccountId := lodash_get (as_object response) ["data"; "billingAccountId"] in
     if negb (truthy billingAccountId) then
       (* [_.set(response, 'data', ...)] rewrites the local response only *)
       let _response :=
         {| status := status response;
            data := JStr (cat ["There is no billing account id associated with project ";
                               ToString id]) |} in
       ret JNull
     else
       let statusCode := status response in
       log loggerFile info
         (cat ["EndPoint: GET /projects/"; ToString id; ","; NL;
               "    GET parameters: null, Status Code:"; ToString statusCode;
               ", Response:"; circularJSON_stringify env (data response)]) ;;
       ret billingAccountId)
    (fun err =>
     log_err_response_data err ;;
     log logger error
       (cat ["EndPoint: GET /projects/"; ToString id;
             ", GET parameters: null, Status Code:null,"; NL;
             "    Error: 'Failed to get billing detail for the project.', Details: ";
             circularJSON_stringify env err]) ;;
     throw (convertTopcoderApiError err "Failed to get billing detail for the project.")).

Definition getTopcoderMemberId (handle : JsVal) : M JsVal :=
  try_catch
    (response <- await_axios
       (axios_get (cat [TC_API_URL_V3 config; "/members/"; ToString handle]) JUndefined) ;;
     let statusCode := status response in
     log loggerFile info
       (cat ["EndPoint: GET members/"; ToString handle;
             ",  GET parameters: null, Status Code:"; ToString statusCode;
             ", Response:"; circularJSON_stringify env (data response)]) ;;
     ret (lodash_get (as_object response) ["data"; "result"; "content"; "userId"]))
    (fun err =>
     log loggerFile info
       (cat ["EndPoint: GET members/"; ToString handle;
             ", GET parameters: null, Status Code:null,"; NL;
             "    Error: 'Failed to get topcoder member id.', Details: ";
             circularJSON_stringify env err]) ;;
     throw (convertTopcoderApiError err "Failed to get topcoder member id.")).

Definition addResourceToChallenge (id handle roleId : JsVal) : M JsVal :=
  apiKey <- getM2Mtoken ;;
  log logger debug (cat ["adding resource to challenge "; ToString id]) ;;
  try_catch
    (response <- await_axios
       (axios_post (cat [TC_API_URL config; "/resources"])
          (JObj [("challengeId", id); ("memberHandle", handle); ("roleId", roleId)])
          (bearer_json_headers apiKey)) ;;
     let statusCode := status_or_null response in
     log loggerFile info
       (cat ["EndPoint: POST /resources,"; NL;
             "    POST parameters: null, Status Code:"; ToString statusCode;
             ", Response:"; circularJSON_stringify env (data response)]) ;;
     ret JUndefined)
    (fun err =>
     log loggerFile info
       (cat ["EndPoint: POST /resources, POST parameters: null, Status Code:null,"; NL;
             "    Error: 'Failed to add resource to the challenge.', Details: ";
             circularJSON_stringify env err]) ;;
     log_err_response_data err ;;
     throw (convertTopcoderApiError err "Failed to add resource to the challenge.")).

Definition getResourcesFromChallenge (id : JsVal) : M JsVal :=
  apiKey <- getM2Mtoken ;;
  log logger debug (cat ["fetch resource from challenge "; ToString id]) ;;
  try_catch
    (response <- await_axios
       (axios_get (cat [TC_API_URL config; "/resources?challengeId="; ToString id])
          (JObj [("headers", JObj [("authorization", JStr (cat ["Bearer "; apiKey]))]);
                 ("Content-Type", JStr "application/json")])) ;;
     let resources := lodash_get (as_object response) ["data"] in
     ret resources)
    (fun err =>
     throw (convertTopcoderApiError err "Failed to fetch resource from the challenge.")).

(** [items.forEach(callback)] over the elements of an array, the callback
    updating the variables [S] it closes over. *)
Fixpoint forEach_items {S : Type} (items : list JsVal) (callback : JsVal -> S -> M S)
  (s : S) : M S :=
  match items with
  | [] => ret s
  | x :: rest => s' <- callback x s ;; forEach_items rest callback s'
  end.

(** [v.forEach(callback)]: a [TypeError] unless [v] is an array. *)
Definition forEach {S : Type} (v : JsVal) (callback : JsVal -> S -> M S) (s : S) : M S :=
  match v with
  | JArr items => forEach_items items callback s
  | JUndefined | JNull => throw (cannot_read "forEach" v)
  | _ => throw (TypeError "resources.forEach is not a function")
  end.

Definition roleAlreadySet (id roleId : JsVal) : M JsVal :=
  let result := false in
  result <- try_catch
    (resources <- getResourcesFromChallenge id ;;
     forEach resources
       (fun resource result =>
          prop resource "roleId" (fun resource_roleId =>
          if strict_eq resource_roleId roleId then ret true else ret result))
       result)
    (fun err =>
     throw (convertTopcoderApiError err "Failed to fetch resource from the challenge.")) ;;
  ret (JBool result).

Definition removeResourceToChallenge (id handle roleId : JsVal) : M JsVal :=
  apiKey <- getM2Mtoken ;;
  log logger debug (cat ["removing resource from challenge "; ToString id]) ;;
  try_catch
    (response <- await_axios
       (axios_delete (cat [TC_API_URL config; "/resources"])
          (JObj [("data", JObj [("challengeId", id); ("memberHandle", handle);
                                ("roleId", roleId)]);
                 ("headers", JObj [("authorization", JStr (cat ["Bearer "; apiKey]));
                                   ("Content-Type", JStr "application/json")])])) ;;
     let statusCode := status_or_null response in
     log loggerFile info
       (cat ["EndPoint: DELETE /resources,"; NL;
             "    DELETE parameters: null, Status Code:"; ToString statusCode;
             ", Response:"; circularJSON_stringify env (data response)]) ;;
     ret JUndefined)
    (fun err =>
     log loggerFile info
       (cat ["EndPoint: DELETE /resources, DELETE parameters: null, Status Code:null,"; NL;
             "    Error: 'Failed to add resource to the challenge.', Details: ";
             circularJSON_stringify env err]) ;;
     log_err_response_data err ;;
     throw (convertTopcoderApiError err "Failed to add resource to the challenge.")).

Definition unregisterUserFromChallenge (id handle roleId : JsVal) : M JsVal :=
  removeResourceToChallenge id handle roleId ;;
  ret JUndefined.

Definition cancelPrivateContent (id : JsVal) : M JsVal :=
  apiKey <- getM2Mtoken ;;
  log logger debug (cat ["Cancelling challenge "; ToString id]) ;;
  try_catch
    (response <- await_axios
       (axios_patch (cat [TC_API_URL config; "/challenges/"; ToString id])
          (JObj [("status", JStr "Canceled")]) (bearer_json_headers apiKey)) ;;
     let statusCode := status_or_null response in
     log loggerFile info
       (cat ["EndPoint: PATCH /challenges/"; ToString id; ","; NL;
             "    PATCH parameters: { status: 'Canceled' }, Status Code:";
             ToString statusCode; ", Response: ";
             circularJSON_stringify env (data response)]) ;;
     log logger debug (cat ["Challenge "; ToString id; " is cancelled successfully."]) ;;
     ret JUndefined)
    (fun err =>
     log logger error (cat ["EndPoint: PATCH /challenges/"; ToString id]) ;;
     log_err_message err ;;
     log_err_request err ;;
     log_err_response_data err ;;
     log loggerFile info
       (cat ["EndPoint: PATCH /challenges/"; ToString id;
             ",  PATCH parameters: { status: 'Canceled' }, Status Code:null,"; NL;
             "    Error: 'Failed to cancel challenge.', Details: ";
             circularJSON_stringify env err]) ;;
     throw (convertTopcoderApiError err "Failed to activate challenge.")).

Definition assignUserAsRegistrant (topcoderUsername challengeId : JsVal) : M JsVal :=
  addResourceToChallenge challengeId topcoderUsername (ROLE_ID_SUBMITTER config) ;;
  ret JUndefined.

(** ** [module.exports]: the public operations *)

Inductive Operation : Type :=
| op_createProject (projectName : JsVal)
| op_getChallengeById (id : JsVal)
| op_createChallenge (challenge : JsVal)
| op_updateChallenge (id challenge : JsVal)
| op_activateChallenge (id : JsVal)
| op_closeChallenge (id winnerId winnerUsername : JsVal)
| op_getProjectBillingAccountId (id : JsVal)
| op_getTopcoderMemberId (handle : JsVal)
| op_addResourceToChallenge (id handle roleId : JsVal)
| op_getResourcesFromChallenge (id : JsVal)
| op_roleAlreadySet (id roleId : JsVal)
| op_unregisterUserFromChallenge (id handle roleId : JsVal)
| op_cancelPrivateContent (id : JsVal)
| op_assignUserAsRegistrant (topcoderUsername challengeId : JsVal)
| op_removeResourceToChallenge (id handle roleId : JsVal).

Definition run (o : Operation) : M JsVal :=
  match o with
  | op_createProject projectName => createProject projectName
  | op_getChallengeById id => getChallengeById id
  | op_createChallenge challenge => createChallenge challenge
  | op_updateChallenge id challenge => updateChallenge id challenge
  | op_activateChallenge id => activateChallenge id
  | op_closeChallenge id winnerId winnerUsername => closeChallenge id winnerId winnerUsername
  | op_getProjectBillingAccountId id => getProjectBillingAccountId id
  | op_getTopcoderMemberId handle => getTopcoderMemberId handle
  | op_addResourceToChallenge id handle roleId => addResourceToChallenge id handle roleId
  | op_getResourcesFromChallenge id => getResourcesFromChallenge id
  | op_roleAlreadySet id roleId => roleAlreadySet id roleId
  | op_unregisterUserFromChallenge id handle roleId =>
      unregisterUserFromChallenge id handle roleId
  | op_cancelPrivateContent id => cancelPrivateContent id
  | op_assignUserAsRegistrant topcoderUsername challengeId =>
      assignUserAsRegistrant topcoderUsername challengeId
  | op_removeResourceToChallenge id handle roleId => removeResourceToChallenge id handle roleId
  end.

(** ** What an observer of the transport sees *)

Definition call_config (c : AxiosCall) : JsVal :=
  match c with
  | axios_post _ _ cfg | axios_patch _ _ cfg | axios_get _ cfg | axios_delete _ cfg => cfg
  end.

Definition authorization_header (c : AxiosCall) : JsVal :=
  lodash_get (call_config c) ["headers"; "authorization"].

Definition m2m_call : Call :=
  MachineTokenCall (AUTH0_CLIENT_ID config) (AUTH0_CLIENT_SECRET config).

(** The operation asks the issuer for the token first and then sends one
    request whose authorization header is the bearer credential [token]. *)
Definition sends_with_bearer (o : Operation) (w : World) (token : string) : Prop :=
  exists c,
    calls (snd (run o w)) = calls w ++ [m2m_call; HttpCall c]
    /\ authorization_header c = JStr (cat ["Bearer "; token]).

(** The operations that authenticate: all but the public member lookup. *)
Definition authenticates (o : Operation) : bool :=
  match o with
  | op_getTopcoderMemberId _ => false
  | _ => true
  end.

(** The operations whose [catch] block logs [err.response.data]. *)
Definition logs_response_data (o : Operation) : bool :=
  match o with
  | op_updateChallenge _ _ | op_activateChallenge _ | op_getChallengeById _
  | op_closeChallenge _ _ _ | op_getProjectBillingAccountId _
  | op_addResourceToChallenge _ _ _ | op_cancelPrivateContent _
  | op_removeResourceToChallenge _ _ _ | op_unregisterUserFromChallenge _ _ _
  | op_assignUserAsRegistrant _ _ => true
  | _ => false
  end.

(** [resources.forEach] of [roleAlreadySet], on resources that are objects:
    is some [resource.roleId === roleId]? *)
Definition has_role (roleId : JsVal) (resources : list JsVal) : bool :=
  existsb (fun resource => strict_eq (field resource "roleId") roleId) resources.

(** [createChallenge] reads its argument before it builds the request. *)
Definition builds_request (o : Operation) : bool :=
  match o with
  | op_createChallenge challenge => negb (nullish challenge)
  | _ => true
  end.

(** The operations without a [return] statement. *)
Definition returns_nothing (o : Operation) : bool :=
  match o with
  | op_updateChallenge _ _ | op_activateChallenge _ | op_closeChallenge _ _ _
  | op_addResourceToChallenge _ _ _ | op_unregisterUserFromChallenge _ _ _
  | op_cancelPrivateContent _ | op_assignUserAsRegistrant _ _
  | op_removeResourceToChallenge _ _ _ => true
  | _ => false
  end.

(** The operations whose request is an [axios.get]. *)
Definition sends_get (o : Operation) : bool :=
  match o with
  | op_getChallengeById _ | op_getProjectBillingAccountId _
  | op_getResourcesFromChallenge _ | op_roleAlreadySet _ _
  | op_getTopcoderMemberId _ => true
  | _ => false
  end.

(** The calls of one operation: at most one token request, then at most
    one HTTP request. *)
Definition one_round (new : list Call) : bool :=
  match new with
  | [HttpCall _] | [MachineTokenCall _ _] | [MachineTokenCall _ _; HttpCall _] => true
  | _ => false
  end.

(** The keys [createChallenge] writes over the challenge template. *)
Definition challenge_keys : list string :=
  ["typeId"; "name"; "description"; "prizeSets"; "timelineTemplateId"; "projectId"].

Definition is_array (v : JsVal) : bool :=
  match v with
  | JArr _ => true
  | _ => false
  end.

End Helper.

(** ** A concrete deployment, used to run the operations *)

Module Sample.

Definition config : Config := {|
  TC_AUTHN_URL := "https://topcoder-dev.auth0.com/oauth/ro";
  TC_AUTHN_REQUEST_BODY := JObj [("username", JStr "svc"); ("password", JStr "secret")];
  TC_AUTHZ_URL := "https://api.topcoder-dev.com/v3/authorizations";
  TC_API_URL := "https://api.topcoder-dev.com/v5";
  TC_API_URL_V3 := "https://api.topcoder-dev.com/v3";
  AUTH0_CLIENT_ID := JStr "client";
  AUTH0_CLIENT_SECRET := JStr "client-secret";
  NEW_CHALLENGE_TEMPLATE := [("status", JStr "Draft")];
  TYPE_ID_FIRST2FINISH := JStr "f2f";
  DEFAULT_TIMELINE_TEMPLATE_ID := JStr "timeline";
  ROLE_ID_SUBMITTER := JStr "submitter"
|}.

(** An environment in which the issuer hands out the machine token ["m2m"],
    every HTTP call is answered by [http], the cached token decodes to
    [claims] and nothing is serialised. *)
Definition env (http : AxiosCall -> JsVal + Response) (claims : JsVal + JsVal) : Env := {|
  axios := fun _ c => http c;
  getMachineToken := fun _ _ _ => inr "m2m";
  jwtDecode := fun _ => claims;
  JSON_stringify := fun _ => "{}";
  circularJSON_stringify := fun _ => "{}";
  StringToNumber := fun _ => None
|}.

Definition world (cache : JsVal) (now : Z) : World :=
  {| cachedAccessToken := cache; clock := now; calls := []; logs := [] |}.

Definition ok (body : JsVal) : JsVal + Response :=
  inr {| status := JNum 200; data := body |}.

(** The identity endpoint answers with both tokens, the authorization
    endpoint with [content] as the content of its result. *)
Definition exchange (content : JsVal) (c : AxiosCall) : JsVal + Response :=
  match c with
  | axios_post _ _ JUndefined =>
      ok (JObj [("id_token", JStr "id"); ("refresh_token", JStr "refresh")])
  | _ =>
      ok (JObj [("result", JObj [("content", content)])])
  end.

Definition fails (e : JsVal) (c : AxiosCall) : JsVal + Response := inl e.

Definition answers (body : JsVal) (c : AxiosCall) : JsVal + Response := ok body.

(** No token is cached, or the cached one does not decode. *)
Definition no_claims : JsVal + JsVal := inl (Error "Invalid token specified").

Definition fresh : World := world JUndefined 1500000000000.

(** A network failure: the thrown error carries no [response]. *)
Definition network_error : JsVal :=
  JObj [("message", JStr "connect ECONNREFUSED"); ("config", JObj [])].

(** A non-2xx answer: the thrown error carries the response. *)
Definition http_error (code : Z) : JsVal :=
  JObj [("message", JStr "Request failed");
        ("config", JObj []);
        ("response", JObj [("status", JNum code); ("data", JObj [])])].

(** An environment whose issuer refuses the machine token with [e]. *)
Definition refusing (e : JsVal) : Env := {|
  axios := fun _ c => ok (JObj []);
  getMachineToken := fun _ _ _ => inl e;
  jwtDecode := fun _ => no_claims;
  JSON_stringify := fun _ => "{}";
  circularJSON_stringify := fun _ => "{}";
  StringToNumber := fun _ => None
|}.

(** A challenge as the callers build it. *)
Definition challenge : JsVal :=
  JObj [("name", JStr "Fix the login page");
        ("detailedRequirements", JStr "See the issue");
        ("prizes", JArr [JNum 100; JNum 50]);
        ("projectId", JNum 7)].

End Sample.

(** ** Proof automation: stepping through an operation *)

Ltac crunch :=
  repeat (cbv beta iota zeta;
    match goal with
    | H : ?x = _ |- context [match ?x with _ => _ end] => rewrite H
    | |- context [match ?x with _ => _ end] =>
        lazymatch x with
        | axios _ _ _ => destruct x eqn:?
        | getMachineToken _ _ _ _ => destruct x eqn:?
        | nullish _ => destruct x eqn:?
        | truthy _ => destruct x eqn:?
        | negb (truthy _) => destruct x eqn:?
        end
    end);
  cbv beta iota zeta.

Ltac unfold_ops :=
  unfold run;
  unfold roleAlreadySet, unregisterUserFromChallenge, assignUserAsRegistrant;
  unfold createProject, createChallenge, updateChallenge, activateChallenge,
    getChallengeById, closeChallenge, getProjectBillingAccountId, getTopcoderMemberId,
    addResourceToChallenge, cancelPrivateContent, removeResourceToChallenge,
    getResourcesFromChallenge;
  unfold log_err_message, log_err_request, log_err_response_data, getM2Mtoken,
    await_getMachineToken, await_axios, try_catch, bind, prop, log, ret, throw.

Ltac extend_by :=
  cbn [snd calls logs cachedAccessToken clock add_log add_call];
  rewrite <- ?app_assoc;
  first [ reflexivity | eexists; reflexivity | exists []; rewrite app_nil_r; reflexivity ].

(** ** Properties of the token provider *)

Section TokenProvider.

Variable config : Config.
Variable env : Env.

Lemma cached_token_usable_world (w : World) :
  snd (cached_token_usable env w) = w.
Proof.
  unfold cached_token_usable, bind, read_cachedAccessToken, call_jwtDecode, prop.
  destruct (truthy (cachedAccessToken w)); [|reflexivity].
  destruct (jwtDecode env (cachedAccessToken w)) as [e|decoded]; [reflexivity|].
  unfold ret. destruct (nullish decoded); reflexivity.
Qed.

Lemma cached_token_usable_absent (w : World) :
  truthy (cachedAccessToken w) = false ->
  cached_token_usable env w = (Return false, w).
Proof.
  intros H. unfold cached_token_usable, bind, read_cachedAccessToken.
  rewrite H. reflexivity.
Qed.

Lemma ToNumber_not_nullish (decoded : JsVal) (k : string) (n : Z) :
  ToNumber env (field decoded k) = Some n -> nullish decoded = false.
Proof.
  destruct decoded; simpl; try discriminate; reflexivity.
Qed.

(** The shape of a run that misses the cache. *)
Lemma getAccessToken_miss (w : World) :
  fst (cached_token_usable env w) = Return false ->
  getAccessToken config env w =
    let w1 := add_call (HttpCall (authn_call config)) w in
    match axios env (calls w) (authn_call config) with
    | inl e => (Throw e, w1)
    | inr v2Response =>
        let v2IdToken := lodash_get (as_object v2Response) ["data"; "id_token"] in
        let v2RefreshToken := lodash_get (as_object v2Response) ["data"; "refresh_token"] in
        if negb (truthy v2IdToken) || negb (truthy v2RefreshToken) then
          (Throw (Error (cat ["cannot authenticate with topcoder: "; TC_AUTHN_URL config])), w1)
        else
          let authz := authz_call config v2IdToken v2RefreshToken in
          let w2 := add_call (HttpCall authz) w1 in
          match axios env (calls w1) authz with
          | inl e => (Throw e, w2)
          | inr v3Response =>
              let token :=
                lodash_get (as_object v3Response) ["data"; "result"; "content"; "token"] in
              if truthy token then (Return token, set_cache token w2)
              else (Throw (Error (cat ["cannot authorize with topcoder: ";
                                       TC_AUTHZ_URL config])),
                    set_cache token w2)
          end
    end.
Proof.
  intros Hmiss.
  pose proof (cached_token_usable_world w) as Hw.
  unfold getAccessToken, bind at 1.
  destruct (cached_token_usable env w) as [r w0]. simpl in Hmiss, Hw. subst r w0.
  unfold bind, await_axios. cbv zeta.
  destruct (axios env (calls w) (authn_call config)) as [e|v2Response]; [reflexivity|].
  destruct (negb (truthy (lodash_get (as_object v2Response) ["data"; "id_token"]))
            || negb (truthy (lodash_get (as_object v2Response) ["data"; "refresh_token"])));
    [reflexivity|].
  destruct (axios env _ _) as [e|v3Response]; [reflexivity|].
  unfold write_cachedAccessToken, read_cachedAccessToken. simpl.
  destruct (truthy _); reflexivity.
Qed.

(** A run that misses the cache starts with the identity-exchange call. *)
Lemma getAccessToken_miss_first_call (w : World) :
  fst (cached_token_usable env w) = Return false ->
  exists rest,
    calls (snd (getAccessToken config env w))
    = calls w ++ HttpCall (authn_call config) :: rest.
Proof.
  intros Hmiss. rewrite (getAccessToken_miss w Hmiss). cbv zeta.
  destruct (axios env (calls w) (authn_call config)) as [e|r1];
    [exists []; reflexivity|].
  destruct (negb _ || negb _); [exists []; reflexivity|].
  destruct (axios env _ _) as [e|r2].
  - eexists. simpl. rewrite <- app_assoc. reflexivity.
  - destruct (truthy _); eexists; simpl; rewrite <- app_assoc; reflexivity.
Qed.

(** A run that misses the cache returns a token only after both exchange
    calls, and the token returned is the one left in the cache. *)
Lemma getAccessToken_miss_return (w w' : World) (token : JsVal) :
  fst (cached_token_usable env w) = Return false ->
  getAccessToken config env w = (Return token, w') ->
  exists idToken refreshToken,
    calls w' = calls w ++ [HttpCall (authn_call config);
                           HttpCall (authz_call config idToken refreshToken)]
    /\ cachedAccessToken w' = token
    /\ truthy token = true.
Proof.
  intros Hmiss. rewrite (getAccessToken_miss w Hmiss). cbv zeta.
  destruct (axios env (calls w) (authn_call config)) as [e|r1]; [discriminate|].
  destruct (negb _ || negb _); [discriminate|].
  destruct (axios env _ _) as [e|r2]; [discriminate|].
  destruct (truthy _) eqn:Ht; [|discriminate].
  intros H. inversion H; subst. do 2 eexists. simpl.
  rewrite <- app_assoc. simpl. repeat split. exact Ht.
Qed.

(** C2. A cached token whose decoded issued-at claim is greater than the
    current time is returned as it is, and the world is left untouched: no
    call reaches the transport (neither exchange call is made). *)
Theorem getAccessToken_cached_future (w : World) (decoded : JsVal) (iat : Z) :
  truthy (cachedAccessToken w) = true ->
  jwtDecode env (cachedAccessToken w) = inr decoded ->
  ToNumber env (field decoded "iat") = Some iat ->
  clock w < iat ->
  getAccessToken config env w = (Return (cachedAccessToken w), w)
  /\ calls (snd (getAccessToken config env w)) = calls w.
Proof.
  intros Hcached Hdec Hiat Hfuture.
  assert (Hrun : getAccessToken config env w = (Return (cachedAccessToken w), w)).
  { unfold getAccessToken, cached_token_usable, bind, read_cachedAccessToken,
      call_jwtDecode, prop, Date_getTime, ret, gt_number.
    rewrite Hcached, Hdec. rewrite (ToNumber_not_nullish _ _ _ Hiat), Hiat.
    apply Z.ltb_lt in Hfuture. rewrite Hfuture. reflexivity. }
  rewrite Hrun. split; reflexivity.
Qed.

(** C3. With no token cached and an exchange that yields its tokens,
    [getAccessToken] makes exactly two transport calls, the identity exchange
    and then the authorization exchange, stores the access token in the cache
    and returns it. *)
Theorem getAccessToken_no_cache_exchange (w : World) (r1 r2 : Response) :
  let idToken := lodash_get (as_object r1) ["data"; "id_token"] in
  let refreshToken := lodash_get (as_object r1) ["data"; "refresh_token"] in
  let token := lodash_get (as_object r2) ["data"; "result"; "content"; "token"] in
  truthy (cachedAccessToken w) = false ->
  axios env (calls w) (authn_call config) = inr r1 ->
  truthy idToken = true ->
  truthy refreshToken = true ->
  axios env (calls w ++ [HttpCall (authn_call config)])
    (authz_call config idToken refreshToken) = inr r2 ->
  truthy token = true ->
  exists w',
    getAccessToken config env w = (Return token, w')
    /\ calls w' = calls w ++ [HttpCall (authn_call config);
                              HttpCall (authz_call config idToken refreshToken)]
    /\ cachedAccessToken w' = token.
Proof.
  intros idToken refreshToken token Hnone H1 Hid Hrf H2 Htok.
  rewrite getAccessToken_miss
    by (rewrite (cached_token_usable_absent w Hnone); reflexivity).
  cbv zeta. rewrite H1. fold idToken refreshToken. rewrite Hid, Hrf. simpl negb.
  simpl orb. cbv iota. simpl calls at 1. rewrite H2. fold token. rewrite Htok.
  eexists. split; [reflexivity|]. simpl. rewrite <- app_assoc. split; reflexivity.
Qed.

(** C4. When the identity-exchange response omits the id token or the
    refresh token, [getAccessToken] fails with the authentication error and
    the identity exchange is the only call made: the authorization exchange
    is not attempted. *)
Theorem getAccessToken_authn_incomplete (w : World) (r1 : Response) :
  fst (cached_token_usable env w) = Return false ->
  axios env (calls w) (authn_call config) = inr r1 ->
  lodash_get (as_object r1) ["data"; "id_token"] = JUndefined
  \/ lodash_get (as_object r1) ["data"; "refresh_token"] = JUndefined ->
  exists w',
    getAccessToken config env w = (Throw (AuthenticationError config), w')
    /\ calls w' = calls w ++ [HttpCall (authn_call config)]
    /\ forall idToken refreshToken,
         ~ In (HttpCall (authz_call config idToken refreshToken))
              [HttpCall (authn_call config)].
Proof.
  intros Hmiss H1 Homit.
  rewrite (getAccessToken_miss w Hmiss). cbv zeta. rewrite H1.
  assert (Hbad : negb (truthy (lodash_get (as_object r1) ["data"; "id_token"]))
                 || negb (truthy (lodash_get (as_object r1) ["data"; "refresh_token"]))
                 = true).
  { destruct Homit as [-> | ->]; simpl; [reflexivity | apply orb_true_r]. }
  rewrite Hbad. eexists. split; [reflexivity|]. split; [reflexivity|].
  intros idToken refreshToken [Heq | []]. unfold authn_call, authz_call in Heq.
  discriminate Heq.
Qed.

(** C10. When the authorization-exchange response carries no token,
    [getAccessToken] has already written the absent value over the cache when
    it throws: a token cached before is gone, and a later call cannot be
    served from the cache; it starts again with the identity exchange and
    returns a token only after both exchange calls. *)
Theorem getAccessToken_authz_no_token_clears_cache (w : World) (r1 r2 : Response) :
  let idToken := lodash_get (as_object r1) ["data"; "id_token"] in
  let refreshToken := lodash_get (as_object r1) ["data"; "refresh_token"] in
  fst (cached_token_usable env w) = Return false ->
  axios env (calls w) (authn_call config) = inr r1 ->
  truthy idToken = true ->
  truthy refreshToken = true ->
  axios env (calls w ++ [HttpCall (authn_call config)])
    (authz_call config idToken refreshToken) = inr r2 ->
  lodash_get (as_object r2) ["data"; "result"; "content"; "token"] = JUndefined ->
  exists w',
    getAccessToken config env w = (Throw (AuthorizationError config), w')
    /\ cachedAccessToken w' = JUndefined
    /\ forall next : World,
         cachedAccessToken next = cachedAccessToken w' ->
         cached_token_usable env next = (Return false, next)
         /\ (exists rest,
               calls (snd (getAccessToken config env next))
               = calls next ++ HttpCall (authn_call config) :: rest)
         /\ (forall token next',
               getAccessToken config env next = (Return token, next') ->
               exists a b,
                 calls next' = calls next ++ [HttpCall (authn_call config);
                                              HttpCall (authz_call config a b)]).
Proof.
  intros idToken refreshToken Hmiss H1 Hid Hrf H2 Hno.
  rewrite (getAccessToken_miss w Hmiss). cbv zeta. rewrite H1.
  fold idToken refreshToken. rewrite Hid, Hrf. simpl negb. simpl orb. cbv iota.
  simpl calls at 1. rewrite H2, Hno. simpl truthy. cbv iota.
  eexists. split; [reflexivity|]. split; [reflexivity|].
  intros next Hcache. simpl in Hcache.
  assert (Hnext : cached_token_usable env next = (Return false, next)).
  { apply cached_token_usable_absent. rewrite Hcache. reflexivity. }
  split; [exact Hnext|]. split.
  - apply getAccessToken_miss_first_call. rewrite Hnext. reflexivity.
  - intros token next' Hret.
    destruct (getAccessToken_miss_return next next' token) as (a & b & Hc & _);
      [rewrite Hnext; reflexivity | exact Hret |].
    exists a, b. exact Hc.
Qed.

End TokenProvider.

(** ** Properties of the endpoint operations *)

Section Operations.

Variable config : Config.
Variable env : Env.

(** [removeResourceToChallenge] has no return statement. *)
Lemma removeResourceToChallenge_returns_undefined (id handle roleId : JsVal) (w w' : World)
  (v : JsVal) :
  removeResourceToChallenge config env id handle roleId w = (Return v, w') ->
  v = JUndefined.
Proof.
  unfold_ops. crunch; intros H; inversion H; reflexivity.
Qed.

(** C9. [unregisterUserFromChallenge id handle roleId] behaves exactly as
    [removeResourceToChallenge id handle roleId]: the same outcome and the
    same final world, hence the same calls (method, path, body, headers),
    the same log lines and no other effect. *)
Theorem unregisterUserFromChallenge_is_removeResourceToChallenge
  (id handle roleId : JsVal) (w : World) :
  unregisterUserFromChallenge config env id handle roleId w
  = removeResourceToChallenge config env id handle roleId w.
Proof.
  unfold unregisterUserFromChallenge, bind at 1.
  destruct (removeResourceToChallenge config env id handle roleId w) as [[v|e] w'] eqn:E;
    [|reflexivity].
  apply removeResourceToChallenge_returns_undefined in E. subst v. reflexivity.
Qed.

Lemma forEach_items_world {S : Type} (callback : JsVal -> S -> M S) :
  (forall x s w, snd (callback x s w) = w) ->
  forall items s w, snd (forEach_items items callback s w) = w.
Proof.
  intros Hcb items. induction items as [|x rest IH]; intros s w; [reflexivity|].
  simpl. unfold bind. specialize (Hcb x s w).
  destruct (callback x s w) as [[s'|e] w1]; simpl in Hcb; subst w1; [apply IH|reflexivity].
Qed.

Lemma forEach_world {S : Type} (callback : JsVal -> S -> M S) :
  (forall x s w, snd (callback x s w) = w) ->
  forall v s w, snd (forEach v callback s w) = w.
Proof.
  intros Hcb v s w. destruct v; try reflexivity. apply forEach_items_world, Hcb.
Qed.

(** [roleAlreadySet] makes the calls of [getResourcesFromChallenge] and no
    other. *)
Lemma roleAlreadySet_calls (id roleId : JsVal) (w : World) :
  calls (snd (roleAlreadySet config env id roleId w))
  = calls (snd (getResourcesFromChallenge config env id w)).
Proof.
  unfold roleAlreadySet, bind at 1, try_catch at 1, bind at 1.
  destruct (getResourcesFromChallenge config env id w) as [[resources|e] w1];
    [|reflexivity].
  match goal with
  | |- context [forEach resources ?cb false w1] =>
      assert (Hw : snd (forEach resources cb false w1) = w1);
      [|destruct (forEach resources cb false w1) as [[b|e] w2]]
  end.
  - apply forEach_world. intros x s w0. unfold prop, ret, throw.
    destruct (nullish x); [reflexivity|]. destruct (strict_eq _ _); reflexivity.
  - simpl in Hw. subst w2. reflexivity.
  - simpl in Hw. subst w2. reflexivity.
Qed.

(** C7, as the code has it.  Every public operation other than
    [getTopcoderMemberId] asks the issuer for the machine token before
    anything else and, the token obtained, sends exactly one request, whose
    authorization header is the bearer credential made of that token (the
    one exception being [createChallenge] on an absent challenge, which
    stops before a request is built).  [getTopcoderMemberId] asks for no
    token and sends its one request without an authorization header. *)
Theorem public_operations_bearer (o : Operation) (w : World) (token : string) :
  getMachineToken env (calls w) (AUTH0_CLIENT_ID config) (AUTH0_CLIENT_SECRET config)
  = inr token ->
  if authenticates o then
    if builds_request o then sends_with_bearer config env o w token
    else calls (snd (run config env o w)) = calls w ++ [m2m_call config]
  else
    exists c,
      calls (snd (run config env o w)) = calls w ++ [HttpCall c]
      /\ authorization_header c = JUndefined.
Proof.
  intros Htoken. unfold sends_with_bearer, m2m_call.
  destruct o; cbn [authenticates builds_request run];
    try rewrite roleAlreadySet_calls;
    try (destruct (nullish challenge) eqn:Hch; cbn [negb]);
    unfold_ops; try rewrite Htoken; try rewrite Hch; cbv beta iota zeta;
    crunch;
    try (eexists; split; [cbn; rewrite <- ?app_assoc; reflexivity | reflexivity]);
    try (cbn; rewrite <- ?app_assoc; reflexivity).
Qed.

(** An error thrown by the transport without a [response] (a network error,
    a timeout) makes the [catch] block of these operations fail on
    [err.response.data]: the [TypeError] escapes and the error is never
    normalized. *)
Lemma response_less_error_escapes (o : Operation) (w : World) (token : string) (e : JsVal) :
  logs_response_data o = true ->
  getMachineToken env (calls w) (AUTH0_CLIENT_ID config) (AUTH0_CLIENT_SECRET config)
  = inr token ->
  (forall c, axios env (calls w ++ [m2m_call config]) c = inl e) ->
  nullish e = false ->
  nullish (field e "response") = true ->
  fst (run config env o w) = Throw (cannot_read "data" (field e "response")).
Proof.
  intros Ho Htoken Hfail He Hresp. unfold m2m_call in Hfail.
  destruct o; try discriminate Ho; unfold_ops; rewrite Htoken; cbn [calls add_call add_log];
    rewrite Hfail; cbv beta iota zeta; rewrite ?He, ?Hresp; reflexivity.
Qed.

Lemma getResourcesFromChallenge_ok (id : JsVal) (w : World) (token : string)
  (r : Response) :
  getMachineToken env (calls w) (AUTH0_CLIENT_ID config) (AUTH0_CLIENT_SECRET config)
  = inr token ->
  axios env (calls w ++ [m2m_call config])
    (axios_get (cat [TC_API_URL config; "/resources?challengeId="; ToString id])
       (JObj [("headers", JObj [("authorization", JStr (cat ["Bearer "; token]))]);
              ("Content-Type", JStr "application/json")])) = inr r ->
  exists w',
    getResourcesFromChallenge config env id w = (Return (data r), w').
Proof.
  intros Htoken Hget. unfold m2m_call in Hget. unfold_ops. rewrite Htoken.
  cbn [calls add_call add_log]. rewrite Hget. eexists. reflexivity.
Qed.

(** The scan of [roleAlreadySet] over resources that are objects. *)
Lemma forEach_items_scan (roleId : JsVal) (resources : list JsVal) :
  Forall (fun resource => nullish resource = false) resources ->
  forall (result : bool) (w : World),
    forEach_items resources
      (fun resource result =>
         prop resource "roleId" (fun resource_roleId =>
         if strict_eq resource_roleId roleId then ret true else ret result))
      result w
    = (Return (result || has_role roleId resources), w).
Proof.
  induction 1 as [|resource rest Hobj _ IH]; intros result w.
  - simpl. rewrite orb_false_r. reflexivity.
  - simpl. unfold bind, prop at 1. rewrite Hobj.
    destruct (strict_eq (field resource "roleId") roleId); unfold ret at 1; rewrite IH.
    + rewrite orb_true_r. reflexivity.
    + reflexivity.
Qed.

Lemma has_role_spec (roleId : JsVal) (resources : list JsVal) :
  has_role roleId resources = true
  <-> exists resource,
        In resource resources /\ strict_eq (field resource "roleId") roleId = true.
Proof.
  unfold has_role. apply existsb_exists.
Qed.

(** C6. On a fetched list of resources (objects), [roleAlreadySet id roleId]
    returns a boolean that is [true] exactly when some resource of the list
    has a [roleId] strictly equal to the queried one. *)
Theorem roleAlreadySet_iff (id roleId : JsVal) (w : World) (token : string)
  (r : Response) (resources : list JsVal) :
  getMachineToken env (calls w) (AUTH0_CLIENT_ID config) (AUTH0_CLIENT_SECRET config)
  = inr token ->
  axios env (calls w ++ [m2m_call config])
    (axios_get (cat [TC_API_URL config; "/resources?challengeId="; ToString id])
       (JObj [("headers", JObj [("authorization", JStr (cat ["Bearer "; token]))]);
              ("Content-Type", JStr "application/json")])) = inr r ->
  data r = JArr resources ->
  Forall (fun resource => nullish resource = false) resources ->
  exists b : bool,
    fst (roleAlreadySet config env id roleId w) = Return (JBool b)
    /\ (b = true <->
        exists resource,
          In resource resources /\ strict_eq (field resource "roleId") roleId = true).
Proof.
  intros Htoken Hget Hdata Hobjs. exists (has_role roleId resources).
  split; [|apply has_role_spec].
  unfold roleAlreadySet, bind, try_catch.
  destruct (getResourcesFromChallenge_ok id w token r Htoken Hget) as [w1 ->].
  cbv beta iota. rewrite Hdata. cbn [forEach].
  rewrite (forEach_items_scan roleId resources Hobjs). reflexivity.
Qed.

(** C5, as the code has it.  On a successful response whose body is an
    object, [getProjectBillingAccountId] yields [null] when the body has no
    [billingAccountId] field, the field's value when that value is truthy,
    and [null] when the field is present with a falsy value. *)
Theorem getProjectBillingAccountId_result (id : JsVal) (w : World) (token : string)
  (r : Response) (body : list (string * JsVal)) :
  getMachineToken env (calls w) (AUTH0_CLIENT_ID config) (AUTH0_CLIENT_SECRET config)
  = inr token ->
  axios env (calls w ++ [m2m_call config])
    (axios_get (cat [TC_API_URL config; "/projects/"; ToString id])
       (JObj [("headers", JObj [("authorization", JStr (cat ["Bearer "; token]))])]))
  = inr r ->
  data r = JObj body ->
  (assoc "billingAccountId" body = None ->
   fst (getProjectBillingAccountId config env id w) = Return JNull)
  /\ (forall v, assoc "billingAccountId" body = Some v -> truthy v = true ->
      fst (getProjectBillingAccountId config env id w) = Return v)
  /\ (forall v, assoc "billingAccountId" body = Some v -> truthy v = false ->
      fst (getProjectBillingAccountId config env id w) = Return JNull).
Proof.
  intros Htoken Hget Hdata. unfold m2m_call in Hget.
  assert (Hrun : fst (getProjectBillingAccountId config env id w)
                 = Return (let v := field (JObj body) "billingAccountId" in
                           if truthy v then v else JNull)).
  { unfold_ops. rewrite Htoken. cbn [calls add_call add_log]. rewrite Hget.
    cbn [lodash_get as_object nullish field assoc String.eqb Ascii.eqb Bool.eqb].
    rewrite Hdata. cbn [nullish field]. cbv zeta.
    destruct (truthy _); reflexivity. }
  rewrite Hrun. cbn [field]. split; [|split].
  - intros ->. reflexivity.
  - intros v -> ->. reflexivity.
  - intros v -> ->. reflexivity.
Qed.

(** On an error that carries a response, [cancelPrivateContent] raises with
    the description of [activateChallenge], and [removeResourceToChallenge]
    with that of [addResourceToChallenge]. *)
Lemma shared_error_descriptions (id handle roleId : JsVal) (w : World) (token : string)
  (e : JsVal) :
  getMachineToken env (calls w) (AUTH0_CLIENT_ID config) (AUTH0_CLIENT_SECRET config)
  = inr token ->
  (forall c, axios env (calls w ++ [m2m_call config]) c = inl e) ->
  nullish e = false ->
  nullish (field e "response") = false ->
  fst (cancelPrivateContent config env id w)
  = Throw (convertTopcoderApiError e "Failed to activate challenge.")
  /\ fst (activateChallenge config env id w) = fst (cancelPrivateContent config env id w)
  /\ fst (removeResourceToChallenge config env id handle roleId w)
     = Throw (convertTopcoderApiError e "Failed to add resource to the challenge.")
  /\ fst (addResourceToChallenge config env id handle roleId w)
     = fst (removeResourceToChallenge config env id handle roleId w).
Proof.
  intros Htoken Hfail He Hresp. unfold m2m_call in Hfail.
  unfold_ops. rewrite Htoken. cbn [calls add_call add_log]. rewrite !Hfail.
  cbv beta iota zeta. rewrite !He, !Hresp. cbn [fst].
  split; [reflexivity|]. split; [reflexivity|]. split; reflexivity.
Qed.

End Operations.

(** ** The operations at work on the sample deployment *)

Lemma getAccessToken_cached_future_witness :
  let e := Sample.env (Sample.exchange (JObj [])) (inr (JObj [("iat", JNum 2000)])) in
  let w := Sample.world (JStr "cached.jwt") 1000 in
  getAccessToken Sample.config e w = (Return (JStr "cached.jwt"), w)
  /\ calls (snd (getAccessToken Sample.config e w)) = [].
Proof.
  exact (getAccessToken_cached_future Sample.config
           (Sample.env (Sample.exchange (JObj [])) (inr (JObj [("iat", JNum 2000)])))
           (Sample.world (JStr "cached.jwt") 1000)
           (JObj [("iat", JNum 2000)]) 2000 eq_refl eq_refl eq_refl eq_refl).
Defined.

Lemma getAccessToken_no_cache_exchange_witness :
  let e := Sample.env (Sample.exchange (JObj [("token", JStr "access")])) Sample.no_claims in
  exists w',
    getAccessToken Sample.config e Sample.fresh = (Return (JStr "access"), w')
    /\ calls w'
       = [HttpCall (authn_call Sample.config);
          HttpCall (authz_call Sample.config (JStr "id") (JStr "refresh"))]
    /\ cachedAccessToken w' = JStr "access".
Proof.
  exact (getAccessToken_no_cache_exchange Sample.config
           (Sample.env (Sample.exchange (JObj [("token", JStr "access")])) Sample.no_claims)
           Sample.fresh
           {| status := JNum 200;
              data := JObj [("id_token", JStr "id"); ("refresh_token", JStr "refresh")] |}
           {| status := JNum 200;
              data := JObj [("result",
                             JObj [("content", JObj [("token", JStr "access")])])] |}
           eq_refl eq_refl eq_refl eq_refl eq_refl eq_refl).
Defined.

Lemma getAccessToken_authn_incomplete_witness :
  let e := Sample.env (Sample.answers (JObj [("id_token", JStr "id")])) Sample.no_claims in
  exists w',
    getAccessToken Sample.config e Sample.fresh
    = (Throw (AuthenticationError Sample.config), w')
    /\ calls w' = [HttpCall (authn_call Sample.config)]
    /\ forall idToken refreshToken,
         ~ In (HttpCall (authz_call Sample.config idToken refreshToken))
              [HttpCall (authn_call Sample.config)].
Proof.
  exact (getAccessToken_authn_incomplete Sample.config
           (Sample.env (Sample.answers (JObj [("id_token", JStr "id")])) Sample.no_claims)
           Sample.fresh
           {| status := JNum 200; data := JObj [("id_token", JStr "id")] |}
           eq_refl eq_refl (or_intror eq_refl)).
Defined.

Lemma getAccessToken_authz_no_token_clears_cache_witness :
  let e := Sample.env (Sample.exchange (JObj [])) (inr (JObj [("iat", JNum 5)])) in
  let w := Sample.world (JStr "stale.jwt") 10 in
  cachedAccessToken w = JStr "stale.jwt"
  /\ exists w',
       getAccessToken Sample.config e w = (Throw (AuthorizationError Sample.config), w')
       /\ cachedAccessToken w' = JUndefined
       /\ forall next : World,
            cachedAccessToken next = cachedAccessToken w' ->
            cached_token_usable e next = (Return false, next)
            /\ (exists rest,
                  calls (snd (getAccessToken Sample.config e next))
                  = calls next ++ HttpCall (authn_call Sample.config) :: rest)
            /\ (forall token next',
                  getAccessToken Sample.config e next = (Return token, next') ->
                  exists a b,
                    calls next' = calls next ++ [HttpCall (authn_call Sample.config);
                                                 HttpCall (authz_call Sample.config a b)]).
Proof.
  split; [reflexivity|].
  exact (getAccessToken_authz_no_token_clears_cache Sample.config
           (Sample.env (Sample.exchange (JObj [])) (inr (JObj [("iat", JNum 5)])))
           (Sample.world (JStr "stale.jwt") 10)
           {| status := JNum 200;
              data := JObj [("id_token", JStr "id"); ("refresh_token", JStr "refresh")] |}
           {| status := JNum 200;
              data := JObj [("result", JObj [("content", JObj [])])] |}
           eq_refl eq_refl eq_refl eq_refl eq_refl eq_refl).
Defined.

Lemma unregister_delete_call_example :
  let e := Sample.env (Sample.answers (JObj [])) Sample.no_claims in
  calls (snd (unregisterUserFromChallenge Sample.config e
                (JStr "c1") (JStr "alice") (JStr "submitter") Sample.fresh))
  = [MachineTokenCall (JStr "client") (JStr "client-secret");
     HttpCall (axios_delete "https://api.topcoder-dev.com/v5/resources"
       (JObj [("data", JObj [("challengeId", JStr "c1"); ("memberHandle", JStr "alice");
                             ("roleId", JStr "submitter")]);
              ("headers", JObj [("authorization", JStr "Bearer m2m");
                                ("Content-Type", JStr "application/json")])]))].
Proof. reflexivity. Qed.

Lemma public_operations_bearer_witness :
  sends_with_bearer Sample.config
    (Sample.env (Sample.answers (JObj [])) Sample.no_claims)
    (op_activateChallenge (JStr "c1")) Sample.fresh "m2m".
Proof.
  exact (public_operations_bearer Sample.config
           (Sample.env (Sample.answers (JObj [])) Sample.no_claims)
           (op_activateChallenge (JStr "c1")) Sample.fresh "m2m" eq_refl).
Defined.

(** C7 fails on [getTopcoderMemberId]: its only call is the unauthenticated
    GET; no token is requested and no authorization header is sent. *)
Lemma getTopcoderMemberId_sends_no_bearer :
  let e := Sample.env (Sample.answers (JObj [])) Sample.no_claims in
  calls (snd (run Sample.config e (op_getTopcoderMemberId (JStr "alice")) Sample.fresh))
  = [HttpCall (axios_get "https://api.topcoder-dev.com/v3/members/alice" JUndefined)]
  /\ ~ exists token,
         sends_with_bearer Sample.config e (op_getTopcoderMemberId (JStr "alice"))
           Sample.fresh token.
Proof.
  split; [reflexivity|].
  intros [token [c [Hcalls _]]]. vm_compute in Hcalls. discriminate Hcalls.
Qed.

Lemma getProjectBillingAccountId_result_witness :
  let e := fun body => Sample.env (Sample.answers (JObj body)) Sample.no_claims in
  fst (getProjectBillingAccountId Sample.config (e [("id", JNum 7)]) (JNum 7) Sample.fresh)
  = Return JNull
  /\ fst (getProjectBillingAccountId Sample.config
            (e [("id", JNum 7); ("billingAccountId", JNum 80001012)]) (JNum 7) Sample.fresh)
     = Return (JNum 80001012)
  /\ fst (getProjectBillingAccountId Sample.config
            (e [("id", JNum 7); ("billingAccountId", JStr EmptyString)]) (JNum 7)
            Sample.fresh)
     = Return JNull.
Proof.
  pose (e := fun body => Sample.env (Sample.answers (JObj body)) Sample.no_claims).
  pose (r := fun body => {| status := JNum 200; data := JObj body |}).
  split; [|split].
  - exact (proj1 (getProjectBillingAccountId_result Sample.config
             (e [("id", JNum 7)]) (JNum 7) Sample.fresh "m2m" (r [("id", JNum 7)])
             [("id", JNum 7)] eq_refl eq_refl eq_refl) eq_refl).
  - exact (proj1 (proj2 (getProjectBillingAccountId_result Sample.config
             (e [("id", JNum 7); ("billingAccountId", JNum 80001012)]) (JNum 7)
             Sample.fresh "m2m" (r [("id", JNum 7); ("billingAccountId", JNum 80001012)])
             [("id", JNum 7); ("billingAccountId", JNum 80001012)]
             eq_refl eq_refl eq_refl)) (JNum 80001012) eq_refl eq_refl).
  - exact (proj2 (proj2 (getProjectBillingAccountId_result Sample.config
             (e [("id", JNum 7); ("billingAccountId", JStr EmptyString)]) (JNum 7)
             Sample.fresh "m2m" (r [("id", JNum 7); ("billingAccountId", JStr EmptyString)])
             [("id", JNum 7); ("billingAccountId", JStr EmptyString)]
             eq_refl eq_refl eq_refl)) (JStr EmptyString) eq_refl eq_refl).
Defined.

(** C5 fails on a falsy field: the body contains [billingAccountId: 0] and
    the operation yields [null], not [0]. *)
Lemma getProjectBillingAccountId_zero_yields_null :
  let body := [("id", JNum 7); ("billingAccountId", JNum 0)] in
  let e := Sample.env (Sample.answers (JObj body)) Sample.no_claims in
  assoc "billingAccountId" body = Some (JNum 0)
  /\ fst (getProjectBillingAccountId Sample.config e (JNum 7) Sample.fresh) = Return JNull
  /\ fst (getProjectBillingAccountId Sample.config e (JNum 7) Sample.fresh)
     <> Return (JNum 0).
Proof.
  split; [reflexivity|]. split; [reflexivity|]. discriminate.
Qed.

Lemma roleAlreadySet_iff_witness :
  let resources := [JObj [("roleId", JStr "A")]; JObj [("roleId", JStr "B")]] in
  let e := Sample.env (Sample.answers (JArr resources)) Sample.no_claims in
  exists b : bool,
    fst (roleAlreadySet Sample.config e (JStr "c1") (JStr "B") Sample.fresh)
    = Return (JBool b)
    /\ (b = true <->
        exists resource,
          In resource resources
          /\ strict_eq (field resource "roleId") (JStr "B") = true).
Proof.
  exact (roleAlreadySet_iff Sample.config
           (Sample.env (Sample.answers
              (JArr [JObj [("roleId", JStr "A")]; JObj [("roleId", JStr "B")]]))
              Sample.no_claims)
           (JStr "c1") (JStr "B") Sample.fresh "m2m"
           {| status := JNum 200;
              data := JArr [JObj [("roleId", JStr "A")]; JObj [("roleId", JStr "B")]] |}
           [JObj [("roleId", JStr "A")]; JObj [("roleId", JStr "B")]]
           eq_refl eq_refl eq_refl ltac:(repeat constructor)).
Defined.

(** The three cases the specification lists for [roleAlreadySet]. *)
Lemma roleAlreadySet_examples :
  let listed := JArr [JObj [("roleId", JStr "A")]; JObj [("roleId", JStr "B")]] in
  let e := fun resources => Sample.env (Sample.answers resources) Sample.no_claims in
  fst (roleAlreadySet Sample.config (e listed) (JStr "c1") (JStr "B") Sample.fresh)
  = Return (JBool true)
  /\ fst (roleAlreadySet Sample.config (e listed) (JStr "c1") (JStr "C") Sample.fresh)
     = Return (JBool false)
  /\ fst (roleAlreadySet Sample.config (e (JArr [])) (JStr "c1") (JStr "B") Sample.fresh)
     = Return (JBool false).
Proof. split; [reflexivity|]. split; reflexivity. Qed.

(** C1 fails on the code.  A network error has no [response]; in
    [updateChallenge] the [catch] block then throws a [TypeError] on
    [err.response.data] and the error is never normalized.  In
    [roleAlreadySet] the error normalized by [getResourcesFromChallenge] is
    normalized a second time, so the cause of the error raised is not the
    transport error. *)
Theorem updateChallenge_network_error_escapes :
  let e := Sample.env (Sample.fails Sample.network_error) Sample.no_claims in
  fst (updateChallenge Sample.config e (JStr "c1") (JObj [("name", JStr "n")]) Sample.fresh)
  = Throw (TypeError "Cannot read property 'data' of undefined")
  /\ (forall cause message,
        TypeError "Cannot read property 'data' of undefined"
        <> convertTopcoderApiError cause message)
  /\ fst (roleAlreadySet Sample.config e (JStr "c1") (JStr "B") Sample.fresh)
     = Throw (convertTopcoderApiError
                (convertTopcoderApiError Sample.network_error
                   "Failed to fetch resource from the challenge.")
                "Failed to fetch resource from the challenge.").
Proof.
  split; [reflexivity|]. split; [|reflexivity].
  intros cause message. discriminate.
Qed.

(** C8 fails on the code.  On a failed request [cancelPrivateContent] raises
    the error with the description of [activateChallenge], and
    [removeResourceToChallenge] with that of [addResourceToChallenge]. *)
Theorem cancelPrivateContent_reports_activate_message :
  let err := Sample.http_error 500 in
  let e := Sample.env (Sample.fails err) Sample.no_claims in
  fst (cancelPrivateContent Sample.config e (JStr "c1") Sample.fresh)
  = Throw (convertTopcoderApiError err "Failed to activate challenge.")
  /\ fst (activateChallenge Sample.config e (JStr "c1") Sample.fresh)
     = Throw (convertTopcoderApiError err "Failed to activate challenge.")
  /\ fst (removeResourceToChallenge Sample.config e (JStr "c1") (JStr "alice") (JStr "r")
            Sample.fresh)
     = Throw (convertTopcoderApiError err "Failed to add resource to the challenge.")
  /\ fst (addResourceToChallenge Sample.config e (JStr "c1") (JStr "alice") (JStr "r")
            Sample.fresh)
     = Throw (convertTopcoderApiError err "Failed to add resource to the challenge.").
Proof. repeat (split; [reflexivity|]). reflexivity. Qed.

(** ** Further properties of the endpoint operations *)

Section Invariants.

Variable config : Config.
Variable env : Env.

Lemma roleAlreadySet_world (id roleId : JsVal) (w : World) :
  snd (roleAlreadySet config env id roleId w)
  = snd (getResourcesFromChallenge config env id w).
Proof.
  unfold roleAlreadySet, bind at 1, try_catch at 1, bind at 1.
  destruct (getResourcesFromChallenge config env id w) as [[resources|e] w1];
    [|reflexivity].
  match goal with
  | |- context [forEach resources ?cb false w1] =>
      assert (Hw : snd (forEach resources cb false w1) = w1);
      [|destruct (forEach resources cb false w1) as [[b|e] w2]]
  end.
  - apply forEach_world. intros x s w0. unfold prop, ret, throw.
    destruct (nullish x); [reflexivity|]. destruct (strict_eq _ _); reflexivity.
  - simpl in Hw. subst w2. reflexivity.
  - simpl in Hw. subst w2. reflexivity.
Qed.

(** Whatever the collaborators answer, a public operation leaves the cached
    access token and the clock alone, only appends to the record of calls
    and to the logs, and makes at most one token request followed by at most
    one HTTP request: nothing is retried. *)
Theorem operations_one_round (o : Operation) (w : World) :
  let w' := snd (run config env o w) in
  cachedAccessToken w' = cachedAccessToken w
  /\ clock w' = clock w
  /\ (exists new, calls w' = calls w ++ new /\ one_round new = true)
  /\ (exists lines, logs w' = logs w ++ lines).
Proof.
  cbv zeta.
  destruct o; cbn [run]; try rewrite roleAlreadySet_world;
    unfold_ops; crunch;
    (split; [reflexivity|]); (split; [reflexivity|]);
    (split; [eexists; split; [extend_by | reflexivity] | extend_by]).
Qed.

End Invariants.

Section ErrorPaths.

Variable config : Config.
Variable env : Env.

(** The four operations whose [catch] block does not inspect the error
    normalize whatever the transport throws, be it an error without a
    response or even [undefined]: the error raised wraps the thrown value
    under the operation's description. *)
Theorem plain_handlers_normalize_any_error (w : World) (token : string)
  (e projectName challenge id handle : JsVal) :
  getMachineToken env (calls w) (AUTH0_CLIENT_ID config) (AUTH0_CLIENT_SECRET config)
  = inr token ->
  (forall history c, axios env history c = inl e) ->
  nullish challenge = false ->
  fst (createProject config env projectName w)
  = Throw (convertTopcoderApiError e "Failed to create project.")
  /\ fst (createChallenge config env challenge w)
     = Throw (convertTopcoderApiError e "Failed to create challenge.")
  /\ fst (getTopcoderMemberId config env handle w)
     = Throw (convertTopcoderApiError e "Failed to get topcoder member id.")
  /\ fst (getResourcesFromChallenge config env id w)
     = Throw (convertTopcoderApiError e "Failed to fetch resource from the challenge.").
Proof.
  intros Htoken Hfail Hch. unfold_ops. rewrite Htoken, Hch, !Hfail.
  repeat (split; [reflexivity|]). reflexivity.
Qed.

(** When the error thrown by the transport carries a response, every
    operation raises a normalized error.  Its cause is the thrown error,
    except in [roleAlreadySet], where the cause is the error already
    normalized by [getResourcesFromChallenge]. *)
Theorem response_errors_are_normalized (o : Operation) (w : World) (token : string)
  (e : JsVal) :
  getMachineToken env (calls w) (AUTH0_CLIENT_ID config) (AUTH0_CLIENT_SECRET config)
  = inr token ->
  (forall history c, axios env history c = inl e) ->
  nullish e = false ->
  nullish (field e "response") = false ->
  builds_request o = true ->
  match o with
  | op_roleAlreadySet _ _ =>
      exists inner outer,
        fst (run config env o w)
        = Throw (convertTopcoderApiError (convertTopcoderApiError e inner) outer)
  | _ =>
      exists description,
        fst (run config env o w) = Throw (convertTopcoderApiError e description)
  end.
Proof.
  intros Htoken Hfail He Hresp Hbuild.
  destruct o; cbn [builds_request] in Hbuild;
    try (apply negb_true_iff in Hbuild);
    unfold_ops; try rewrite Htoken; rewrite ?Hbuild, !Hfail; cbv beta iota zeta;
    rewrite ?He, ?Hresp; cbn [fst]; repeat eexists.
Qed.

(** When the issuer refuses the machine token, no HTTP request is sent and
    the issuer's error reaches the caller as it is, not normalized: the
    token request stands outside the [try] block.  [roleAlreadySet] alone
    wraps it, its own [try] block enclosing the whole fetch. *)
Theorem issuer_failure_propagates (o : Operation) (w : World) (e : JsVal) :
  getMachineToken env (calls w) (AUTH0_CLIENT_ID config) (AUTH0_CLIENT_SECRET config)
  = inl e ->
  authenticates o = true ->
  calls (snd (run config env o w)) = calls w ++ [m2m_call config]
  /\ fst (run config env o w)
     = Throw (match o with
              | op_roleAlreadySet _ _ =>
                  convertTopcoderApiError e "Failed to fetch resource from the challenge."
              | _ => e
              end).
Proof.
  intros Hfail Hauth.
  destruct o; try discriminate Hauth; unfold_ops; rewrite Hfail;
    split; reflexivity.
Qed.

End ErrorPaths.

Section SuccessPaths.

Variable config : Config.
Variable env : Env.

(** On a successful response the operations that read a result return the
    documented path of the response; a response without that path gives
    [undefined], not an error. *)
Theorem extracting_operations_return_path (w : World) (token : string) (r : Response)
  (projectName challenge id handle : JsVal) :
  getMachineToken env (calls w) (AUTH0_CLIENT_ID config) (AUTH0_CLIENT_SECRET config)
  = inr token ->
  (forall history c, axios env history c = inr r) ->
  nullish challenge = false ->
  fst (createProject config env projectName w) = Return (lodash_get (data r) ["id"])
  /\ fst (createChallenge config env challenge w) = Return (lodash_get (data r) ["id"])
  /\ fst (getChallengeById config env id w) = Return (data r)
  /\ fst (getResourcesFromChallenge config env id w) = Return (data r)
  /\ fst (getTopcoderMemberId config env handle w)
     = Return (lodash_get (data r) ["result"; "content"; "userId"]).
Proof.
  intros Htoken Hok Hch. unfold_ops. rewrite Htoken, Hch, !Hok.
  repeat (split; [reflexivity|]). reflexivity.
Qed.

(** The operations without a [return] statement resolve with [undefined]
    whatever the successful response holds. *)
Theorem void_operations_return_undefined (o : Operation) (w : World) (token : string)
  (r : Response) :
  getMachineToken env (calls w) (AUTH0_CLIENT_ID config) (AUTH0_CLIENT_SECRET config)
  = inr token ->
  (forall history c, axios env history c = inr r) ->
  returns_nothing o = true ->
  fst (run config env o w) = Return JUndefined.
Proof.
  intros Htoken Hok Hvoid.
  destruct o; try discriminate Hvoid; unfold_ops; rewrite Htoken, !Hok; reflexivity.
Qed.

(** [addResourceToChallenge] has no return statement. *)
Lemma addResourceToChallenge_returns_undefined (id handle roleId : JsVal) (w w' : World)
  (v : JsVal) :
  addResourceToChallenge config env id handle roleId w = (Return v, w') ->
  v = JUndefined.
Proof.
  unfold_ops. crunch; intros H; inversion H; reflexivity.
Qed.

(** [assignUserAsRegistrant topcoderUsername challengeId] behaves exactly as
    [addResourceToChallenge challengeId topcoderUsername ROLE_ID_SUBMITTER]:
    the arguments are swapped and the role is the configured submitter
    role. *)
Theorem assignUserAsRegistrant_is_addResourceToChallenge
  (topcoderUsername challengeId : JsVal) (w : World) :
  assignUserAsRegistrant config env topcoderUsername challengeId w
  = addResourceToChallenge config env challengeId topcoderUsername
      (ROLE_ID_SUBMITTER config) w.
Proof.
  unfold assignUserAsRegistrant, bind at 1.
  destruct (addResourceToChallenge config env challengeId topcoderUsername
              (ROLE_ID_SUBMITTER config) w) as [[v|e] w'] eqn:E; [|reflexivity].
  apply addResourceToChallenge_returns_undefined in E. subst v. reflexivity.
Qed.

(** [activateChallenge], [cancelPrivateContent] and [closeChallenge] make the
    calls [updateChallenge] makes with the matching status body: the same
    token request and the same PATCH of the same URL, body and headers. *)
Theorem status_operations_patch_like_updateChallenge (id winnerId winnerUsername : JsVal)
  (w : World) :
  calls (snd (activateChallenge config env id w))
  = calls (snd (updateChallenge config env id (JObj [("status", JStr "Active")]) w))
  /\ calls (snd (cancelPrivateContent config env id w))
     = calls (snd (updateChallenge config env id (JObj [("status", JStr "Canceled")]) w))
  /\ calls (snd (closeChallenge config env id winnerId winnerUsername w))
     = calls (snd (updateChallenge config env id
                     (JObj [("status", JStr "Completed");
                            ("winners", JArr [JObj [("userId", winnerId);
                                                    ("handle", winnerUsername);
                                                    ("placement", JNum 1)]])]) w)).
Proof.
  split; [|split]; unfold_ops; crunch; reflexivity.
Qed.

(** The requests that carry a body (POST, PATCH, DELETE) declare it as JSON
    in their headers; the GET requests send no Content-Type header. *)
Theorem content_type_header (o : Operation) (w : World) (token : string) :
  getMachineToken env (calls w) (AUTH0_CLIENT_ID config) (AUTH0_CLIENT_SECRET config)
  = inr token ->
  builds_request o = true ->
  exists c,
    calls (snd (run config env o w))
    = calls w ++ (if authenticates o then [m2m_call config; HttpCall c] else [HttpCall c])
    /\ lodash_get (call_config c) ["headers"; "Content-Type"]
       = if sends_get o then JUndefined else JStr "application/json".
Proof.
  intros Htoken Hbuild. unfold m2m_call.
  destruct o; cbn [builds_request] in Hbuild;
    try (apply negb_true_iff in Hbuild);
    cbn [run sends_get authenticates]; try rewrite roleAlreadySet_calls;
    unfold_ops; try rewrite Htoken; rewrite ?Hbuild; cbv beta iota zeta;
    crunch;
    (eexists; split;
     [cbn [snd calls add_call add_log]; rewrite <- ?app_assoc; reflexivity
     | reflexivity]).
Qed.

End SuccessPaths.

Section ChallengeBody.

Variable config : Config.
Variable env : Env.

Lemma assoc_set_field_same (k : string) (x : JsVal) (fields : list (string * JsVal)) :
  assoc k (set_field k x fields) = Some x.
Proof.
  induction fields as [|[k' v] rest IH]; simpl.
  - rewrite String.eqb_refl. reflexivity.
  - destruct (String.eqb k k') eqn:E; simpl; rewrite E; [reflexivity | exact IH].
Qed.

Lemma assoc_set_field_other (k k' : string) (x : JsVal) (fields : list (string * JsVal)) :
  k <> k' -> assoc k (set_field k' x fields) = assoc k fields.
Proof.
  intros Hne. apply String.eqb_neq in Hne.
  induction fields as [|[k0 v] rest IH]; simpl.
  - rewrite Hne. reflexivity.
  - destruct (String.eqb k' k0) eqn:E; simpl.
    + apply String.eqb_eq in E. subst k0. rewrite Hne. reflexivity.
    + destruct (String.eqb k k0); [reflexivity | exact IH].
Qed.

Lemma assoc_not_in (k : string) (fields : list (string * JsVal)) :
  ~ In k (map fst fields) -> assoc k fields = None.
Proof.
  induction fields as [|[k' v] rest IH]; simpl; intros Hnot; [reflexivity|].
  destruct (String.eqb k k') eqn:E.
  - apply String.eqb_eq in E. subst k'. exfalso. apply Hnot. left. reflexivity.
  - apply IH. intros Hin. apply Hnot. right. exact Hin.
Qed.

(** Reading a key after [_.assign]: the source's value when the source has
    the key, the target's value otherwise. *)
Lemma assoc_assign (k : string) (source : list (string * JsVal)) :
  NoDup (map fst source) ->
  forall target,
    assoc k (assign target source)
    = match assoc k source with
      | Some v => Some v
      | None => assoc k target
      end.
Proof.
  unfold assign.
  induction source as [|[k1 v1] rest IH]; intros Hnodup target; [reflexivity|].
  inversion Hnodup as [|? ? Hnotin Hrest]; subst. simpl.
  rewrite (IH Hrest). destruct (String.eqb k k1) eqn:E.
  - apply String.eqb_eq in E. subst k1.
    rewrite (assoc_not_in k rest Hnotin). apply assoc_set_field_same.
  - destruct (assoc k rest); [reflexivity|].
    apply assoc_set_field_other. apply String.eqb_neq. exact E.
Qed.

(** The request [createChallenge] sends for a challenge that is an object. *)
Lemma createChallenge_request (challenge : JsVal) (w : World) (token : string) :
  getMachineToken env (calls w) (AUTH0_CLIENT_ID config) (AUTH0_CLIENT_SECRET config)
  = inr token ->
  nullish challenge = false ->
  calls (snd (createChallenge config env challenge w))
  = calls w ++
    [m2m_call config;
     HttpCall
       (axios_post (cat [TC_API_URL config; "/challenges"])
          (JObj (assign (assign [] (NEW_CHALLENGE_TEMPLATE config))
             [("typeId", TYPE_ID_FIRST2FINISH config);
              ("name", field challenge "name");
              ("description", field challenge "detailedRequirements");
              ("prizeSets",
               JArr [JObj [("type", JStr "Challenge prizes");
                           ("prizes",
                            JArr (lodash_map (field challenge "prizes")
                              (fun prize =>
                                 JObj [("type", JStr "money"); ("value", prize)])))]]);
              ("timelineTemplateId", DEFAULT_TIMELINE_TEMPLATE_ID config);
              ("projectId", field challenge "projectId")]))
          (bearer_json_headers token))].
Proof.
  intros Htoken Hch. unfold m2m_call. unfold_ops. rewrite Htoken, Hch.
  cbv beta iota zeta. crunch; cbn [snd calls add_call add_log];
    rewrite <- ?app_assoc; reflexivity.
Qed.

Lemma challenge_keys_nodup (a b c d e f : JsVal) :
  NoDup (map fst [("typeId", a); ("name", b); ("description", c); ("prizeSets", d);
                  ("timelineTemplateId", e); ("projectId", f)]).
Proof.
  cbn [map fst].
  repeat (constructor; [cbn [In]; intuition discriminate|]). constructor.
Qed.

(** In the body [createChallenge] posts, the six keys the operation writes
    hold the operation's values even when the configured template defines
    them, and every other key reads as in the template. *)
Theorem createChallenge_body_over_template (challenge : JsVal) (w : World)
  (token : string) :
  getMachineToken env (calls w) (AUTH0_CLIENT_ID config) (AUTH0_CLIENT_SECRET config)
  = inr token ->
  nullish challenge = false ->
  NoDup (map fst (NEW_CHALLENGE_TEMPLATE config)) ->
  exists body,
    calls (snd (createChallenge config env challenge w))
    = calls w ++ [m2m_call config;
                  HttpCall (axios_post (cat [TC_API_URL config; "/challenges"])
                              (JObj body) (bearer_json_headers token))]
    /\ assoc "typeId" body = Some (TYPE_ID_FIRST2FINISH config)
    /\ assoc "name" body = Some (field challenge "name")
    /\ assoc "description" body = Some (field challenge "detailedRequirements")
    /\ assoc "timelineTemplateId" body = Some (DEFAULT_TIMELINE_TEMPLATE_ID config)
    /\ assoc "projectId" body = Some (field challenge "projectId")
    /\ forall k, ~ In k challenge_keys ->
                 assoc k body = assoc k (NEW_CHALLENGE_TEMPLATE config).
Proof.
  intros Htoken Hch Htemplate. eexists.
  split; [apply (createChallenge_request challenge w token Htoken Hch)|].
  repeat (split; [rewrite assoc_assign by apply challenge_keys_nodup; reflexivity|]).
  intros k Hk. rewrite assoc_assign by apply challenge_keys_nodup.
  rewrite assoc_assign by exact Htemplate.
  assert (Hnone : forall a b c d e f,
             assoc k [("typeId", a); ("name", b); ("description", c); ("prizeSets", d);
                      ("timelineTemplateId", e); ("projectId", f)] = None).
  { intros. apply assoc_not_in. exact Hk. }
  rewrite Hnone. destruct (assoc k (NEW_CHALLENGE_TEMPLATE config)); reflexivity.
Qed.

(** The prizes of the challenge become money prizes of the single prize
    set, one for one and in order. *)
Theorem createChallenge_prizes_in_order (challenge : JsVal) (w : World)
  (token : string) (prizes : list JsVal) :
  getMachineToken env (calls w) (AUTH0_CLIENT_ID config) (AUTH0_CLIENT_SECRET config)
  = inr token ->
  nullish challenge = false ->
  field challenge "prizes" = JArr prizes ->
  exists body sent,
    calls (snd (createChallenge config env challenge w))
    = calls w ++ [m2m_call config;
                  HttpCall (axios_post (cat [TC_API_URL config; "/challenges"])
                              (JObj body) (bearer_json_headers token))]
    /\ assoc "prizeSets" body
       = Some (JArr [JObj [("type", JStr "Challenge prizes"); ("prizes", JArr sent)]])
    /\ List.length sent = List.length prizes
    /\ forall i prize,
         nth_error prizes i = Some prize ->
         nth_error sent i = Some (JObj [("type", JStr "money"); ("value", prize)]).
Proof.
  intros Htoken Hch Hprizes. do 2 eexists.
  split; [apply (createChallenge_request challenge w token Htoken Hch)|].
  split; [rewrite assoc_assign by apply challenge_keys_nodup; rewrite Hprizes;
          reflexivity|].
  cbn [lodash_map]. split; [apply List.length_map|].
  intros i prize Hi.
  exact (map_nth_error (fun p => JObj [("type", JStr "money"); ("value", p)])
           i prizes Hi).
Qed.

(** A challenge without a [prizes] field is posted with one prize set that
    holds no prize; the missing field is not an error. *)
Theorem createChallenge_without_prizes (challenge : JsVal) (w : World) (token : string) :
  getMachineToken env (calls w) (AUTH0_CLIENT_ID config) (AUTH0_CLIENT_SECRET config)
  = inr token ->
  nullish challenge = false ->
  nullish (field challenge "prizes") = true ->
  exists body,
    calls (snd (createChallenge config env challenge w))
    = calls w ++ [m2m_call config;
                  HttpCall (axios_post (cat [TC_API_URL config; "/challenges"])
                              (JObj body) (bearer_json_headers token))]
    /\ assoc "prizeSets" body
       = Some (JArr [JObj [("type", JStr "Challenge prizes"); ("prizes", JArr [])]]).
Proof.
  intros Htoken Hch Hnone. eexists.
  split; [apply (createChallenge_request challenge w token Htoken Hch)|].
  rewrite assoc_assign by apply challenge_keys_nodup.
  destruct (field challenge "prizes"); try discriminate Hnone; reflexivity.
Qed.

End ChallengeBody.

Section RoleScan.

Variable config : Config.
Variable env : Env.

Lemma fetched_resources (id : JsVal) (w : World) (token : string) (r : Response) :
  getMachineToken env (calls w) (AUTH0_CLIENT_ID config) (AUTH0_CLIENT_SECRET config)
  = inr token ->
  (forall history c, axios env history c = inr r) ->
  exists w', getResourcesFromChallenge config env id w = (Return (data r), w').
Proof.
  intros Htoken Hok. unfold_ops. rewrite Htoken, Hok. eexists. reflexivity.
Qed.

(** The scan stops with a [TypeError] at the first resource that is
    [null] or [undefined], whatever was found before it. *)
Lemma forEach_items_nullish (roleId : JsVal) (resources : list JsVal) :
  Exists (fun resource => nullish resource = true) resources ->
  forall (result : bool) (w : World),
  exists resource,
    nullish resource = true
    /\ forEach_items resources
         (fun resource result =>
            prop resource "roleId" (fun resource_roleId =>
            if strict_eq resource_roleId roleId then ret true else ret result))
         result w
       = (Throw (cannot_read "roleId" resource), w).
Proof.
  induction resources as [|x rest IH]; intros Hex result w.
  - inversion Hex.
  - simpl. unfold bind, prop at 1. destruct (nullish x) eqn:Hx.
    + exists x. split; [exact Hx | reflexivity].
    + assert (Hrest : Exists (fun resource => nullish resource = true) rest).
      { inversion Hex as [? ? Hhead | ? ? Htail]; subst; [congruence | exact Htail]. }
      destruct (strict_eq (field x "roleId") roleId); unfold ret at 1;
        apply (IH Hrest).
Qed.

(** When the body fetched is not an array, [roleAlreadySet] does not answer
    [false]: the failed [forEach] is caught and raised as a normalized error
    whose cause is a [TypeError]. *)
Theorem roleAlreadySet_not_an_array (id roleId : JsVal) (w : World) (token : string)
  (r : Response) :
  getMachineToken env (calls w) (AUTH0_CLIENT_ID config) (AUTH0_CLIENT_SECRET config)
  = inr token ->
  (forall history c, axios env history c = inr r) ->
  is_array (data r) = false ->
  exists cause,
    fst (roleAlreadySet config env id roleId w)
    = Throw (convertTopcoderApiError cause "Failed to fetch resource from the challenge.")
    /\ field cause "name" = JStr "TypeError".
Proof.
  intros Htoken Hok Hnot.
  destruct (fetched_resources id w token r Htoken Hok) as [w1 Hfetch].
  unfold roleAlreadySet, bind, try_catch. rewrite Hfetch. cbv beta iota.
  destruct (data r); try discriminate Hnot; eexists; split; reflexivity.
Qed.

(** A [null] or [undefined] entry anywhere in the fetched list makes
    [roleAlreadySet] raise, even when another resource has the role: the
    scan does not stop at the first match. *)
Theorem roleAlreadySet_null_resource (id roleId : JsVal) (w : World) (token : string)
  (r : Response) (resources : list JsVal) :
  getMachineToken env (calls w) (AUTH0_CLIENT_ID config) (AUTH0_CLIENT_SECRET config)
  = inr token ->
  (forall history c, axios env history c = inr r) ->
  data r = JArr resources ->
  Exists (fun resource => nullish resource = true) resources ->
  exists cause,
    fst (roleAlreadySet config env id roleId w)
    = Throw (convertTopcoderApiError cause "Failed to fetch resource from the challenge.")
    /\ field cause "name" = JStr "TypeError".
Proof.
  intros Htoken Hok Hdata Hnull.
  destruct (fetched_resources id w token r Htoken Hok) as [w1 Hfetch].
  unfold roleAlreadySet, bind, try_catch. rewrite Hfetch. cbv beta iota.
  rewrite Hdata. cbn [forEach].
  destruct (forEach_items_nullish roleId resources Hnull false w1) as (x & Hx & ->).
  eexists. split; reflexivity.
Qed.

End RoleScan.

Section TokenProviderEdges.

Variable config : Config.
Variable env : Env.


(** A cached token that does not decode is never replaced: [getAccessToken]
    throws the decoder's error before any call and leaves the world, cache
    included, as it was, so every later call fails in the same way. *)
Theorem getAccessToken_undecodable_token (w : World) (e : JsVal) :
  truthy (cachedAccessToken w) = true ->
  jwtDecode env (cachedAccessToken w) = inl e ->
  getAccessToken config env w = (Throw e, w)
  /\ forall later,
       cachedAccessToken later = cachedAccessToken w ->
       getAccessToken config env later = (Throw e, later).
Proof.
  intros Hcached Hdec.
  assert (Hall : forall later,
             cachedAccessToken later = cachedAccessToken w ->
             getAccessToken config env later = (Throw e, later)).
  { intros later Hsame.
    unfold getAccessToken, cached_token_usable, bind, read_cachedAccessToken,
      call_jwtDecode, throw.
    rewrite Hsame, Hcached, Hdec. reflexivity. }
  split; [apply Hall; reflexivity | exact Hall].
Qed.

(** When a call of the exchange is rejected by the transport, the
    transport's error reaches the caller as it is and the cache keeps what
    it held: only an answered authorization exchange writes the cache. *)
Theorem getAccessToken_transport_failure_keeps_cache (w : World) (e : JsVal) :
  fst (cached_token_usable env w) = Return false ->
  axios env (calls w) (authn_call config) = inl e
  \/ (exists r1,
        axios env (calls w) (authn_call config) = inr r1
        /\ truthy (lodash_get (as_object r1) ["data"; "id_token"]) = true
        /\ truthy (lodash_get (as_object r1) ["data"; "refresh_token"]) = true
        /\ axios env (calls w ++ [HttpCall (authn_call config)])
             (authz_call config (lodash_get (as_object r1) ["data"; "id_token"])
                (lodash_get (as_object r1) ["data"; "refresh_token"])) = inl e) ->
  fst (getAccessToken config env w) = Throw e
  /\ cachedAccessToken (snd (getAccessToken config env w)) = cachedAccessToken w.
Proof.
  intros Hmiss Hfail. rewrite (getAccessToken_miss config env w Hmiss). cbv zeta.
  destruct Hfail as [H1 | (r1 & H1 & Hid & Hrf & H2)]; rewrite H1.
  - split; reflexivity.
  - rewrite Hid, Hrf. cbn [negb orb]. cbn [calls add_call]. rewrite H2.
    split; reflexivity.
Qed.

Lemma getAccessToken_return_inv (w w' : World) (token : JsVal) :
  getAccessToken config env w = (Return token, w') ->
  truthy token = true /\ cachedAccessToken w' = token.
Proof.
  intros Hret.
  destruct (cached_token_usable env w) as [[usable|e] w0] eqn:Husable.
  - pose proof (cached_token_usable_world env w) as Hw. rewrite Husable in Hw.
    simpl in Hw. subst w0. destruct usable.
    + unfold getAccessToken, bind in Hret. rewrite Husable in Hret.
      unfold read_cachedAccessToken in Hret. inversion Hret; subst.
      split; [|reflexivity].
      destruct (truthy (cachedAccessToken w')) eqn:Ht; [reflexivity|].
      rewrite (cached_token_usable_absent env w' Ht) in Husable. discriminate Husable.
    + destruct (getAccessToken_miss_return config env w w' token) as (a & b & _ & Hc & Ht);
        [rewrite Husable; reflexivity | exact Hret |].
      split; assumption.
  - unfold getAccessToken, bind in Hret. rewrite Husable in Hret. discriminate Hret.
Qed.

(** Whenever [getAccessToken] returns, from the cache or after an exchange,
    the value returned is truthy and is the value the cache holds
    afterwards. *)
Theorem getAccessToken_returns_cached_value (w w' : World) (token : JsVal) :
  getAccessToken config env w = (Return token, w') ->
  truthy token = true /\ cachedAccessToken w' = token.
Proof.
  apply getAccessToken_return_inv.
Qed.

(** Two calls in a row: after a call that returned a token, a later call
    for which that token decodes with an issued-at in the future returns the
    same token and leaves the world as it is; no call is made. *)
Theorem getAccessToken_second_call_hits_cache (w w1 w2 : World) (token decoded : JsVal)
  (iat : Z) :
  getAccessToken config env w = (Return token, w1) ->
  cachedAccessToken w2 = cachedAccessToken w1 ->
  jwtDecode env token = inr decoded ->
  ToNumber env (field decoded "iat") = Some iat ->
  clock w2 < iat ->
  getAccessToken config env w2 = (Return token, w2).
Proof.
  intros Hfirst Hsame Hdec Hiat Hfuture.
  destruct (getAccessToken_return_inv w w1 token Hfirst) as [Htruthy Hcache].
  rewrite Hcache in Hsame.
  unfold getAccessToken, cached_token_usable, bind, read_cachedAccessToken,
    call_jwtDecode, prop, Date_getTime, ret, gt_number.
  rewrite Hsame, Htruthy, Hdec.
  rewrite (ToNumber_not_nullish env _ _ _ Hiat), Hiat.
  apply Z.ltb_lt in Hfuture. rewrite Hfuture. rewrite Hsame. reflexivity.
Qed.

End TokenProviderEdges.

Section TokenProviderCalls.

Variable config : Config.
Variable env : Env.

(** Whatever the collaborators answer, [getAccessToken] makes no call, the
    identity exchange alone, or the identity exchange followed by the
    authorization exchange; it never asks the machine-token issuer, writes no
    log line and leaves the clock alone. *)
Theorem getAccessToken_at_most_two_calls (w : World) :
  let w' := snd (getAccessToken config env w) in
  (exists new,
     calls w' = calls w ++ new
     /\ (new = []
         \/ new = [HttpCall (authn_call config)]
         \/ exists idToken refreshToken,
              new = [HttpCall (authn_call config);
                     HttpCall (authz_call config idToken refreshToken)]))
  /\ logs w' = logs w
  /\ clock w' = clock w.
Proof.
  cbv zeta.
  destruct (cached_token_usable env w) as [[usable|e] w0] eqn:Husable;
    pose proof (cached_token_usable_world env w) as Hw; rewrite Husable in Hw;
    simpl in Hw; subst w0.
  - destruct usable.
    + unfold getAccessToken, bind. rewrite Husable. cbn [read_cachedAccessToken snd].
      split; [exists []; split; [rewrite app_nil_r; reflexivity | left; reflexivity]|].
      split; reflexivity.
    + rewrite (getAccessToken_miss config env w) by (rewrite Husable; reflexivity).
      cbv zeta.
      destruct (axios env (calls w) (authn_call config)) as [e|r1].
      * split; [exists [HttpCall (authn_call config)]; split;
                [reflexivity | right; left; reflexivity]|].
        split; reflexivity.
      * destruct (negb _ || negb _).
        -- split; [exists [HttpCall (authn_call config)]; split;
                   [reflexivity | right; left; reflexivity]|].
           split; reflexivity.
        -- destruct (axios env _ _) as [e|r2]; [|destruct (truthy _)];
             (split; [eexists; split;
                      [cbn [snd calls add_call set_cache]; rewrite <- app_assoc;
                       reflexivity
                      | right; right; do 2 eexists; reflexivity]|]);
             split; reflexivity.
  - unfold getAccessToken, bind. rewrite Husable. cbn [snd].
    split; [exists []; split; [rewrite app_nil_r; reflexivity | left; reflexivity]|].
    split; reflexivity.
Qed.

End TokenProviderCalls.

(** ** The further properties at work on the sample deployment *)

Lemma plain_handlers_normalize_any_error_witness :
  let e := Sample.env (Sample.fails JUndefined) Sample.no_claims in
  fst (createProject Sample.config e (JStr "p") Sample.fresh)
  = Throw (convertTopcoderApiError JUndefined "Failed to create project.")
  /\ fst (createChallenge Sample.config e Sample.challenge Sample.fresh)
     = Throw (convertTopcoderApiError JUndefined "Failed to create challenge.")
  /\ fst (getTopcoderMemberId Sample.config e (JStr "alice") Sample.fresh)
     = Throw (convertTopcoderApiError JUndefined "Failed to get topcoder member id.")
  /\ fst (getResourcesFromChallenge Sample.config e (JStr "c1") Sample.fresh)
     = Throw (convertTopcoderApiError JUndefined
                "Failed to fetch resource from the challenge.").
Proof.
  apply (plain_handlers_normalize_any_error Sample.config
           (Sample.env (Sample.fails JUndefined) Sample.no_claims)
           Sample.fresh "m2m" JUndefined (JStr "p") Sample.challenge (JStr "c1")
           (JStr "alice"));
    [reflexivity | intros; reflexivity | reflexivity].
Defined.

Lemma response_errors_are_normalized_witness :
  let e := Sample.env (Sample.fails (Sample.http_error 404)) Sample.no_claims in
  exists description,
    fst (run Sample.config e (op_getChallengeById (JStr "c1")) Sample.fresh)
    = Throw (convertTopcoderApiError (Sample.http_error 404) description).
Proof.
  apply (response_errors_are_normalized Sample.config
           (Sample.env (Sample.fails (Sample.http_error 404)) Sample.no_claims)
           (op_getChallengeById (JStr "c1")) Sample.fresh "m2m" (Sample.http_error 404));
    [reflexivity | intros; reflexivity | reflexivity | reflexivity | reflexivity].
Defined.

Lemma issuer_failure_propagates_witness :
  let refusal := Error "unauthorized_client" in
  calls (snd (run Sample.config (Sample.refusing refusal)
                (op_closeChallenge (JStr "c1") (JNum 40) (JStr "alice")) Sample.fresh))
  = [m2m_call Sample.config]
  /\ fst (run Sample.config (Sample.refusing refusal)
            (op_closeChallenge (JStr "c1") (JNum 40) (JStr "alice")) Sample.fresh)
     = Throw refusal.
Proof.
  apply (issuer_failure_propagates Sample.config
           (Sample.refusing (Error "unauthorized_client"))
           (op_closeChallenge (JStr "c1") (JNum 40) (JStr "alice")) Sample.fresh
           (Error "unauthorized_client"));
    reflexivity.
Defined.

Lemma extracting_operations_return_path_witness :
  let body := JObj [("id", JNum 30054)] in
  let e := Sample.env (Sample.answers body) Sample.no_claims in
  fst (createProject Sample.config e (JStr "p") Sample.fresh) = Return (JNum 30054)
  /\ fst (createChallenge Sample.config e Sample.challenge Sample.fresh)
     = Return (JNum 30054)
  /\ fst (getChallengeById Sample.config e (JStr "c1") Sample.fresh) = Return body
  /\ fst (getResourcesFromChallenge Sample.config e (JStr "c1") Sample.fresh)
     = Return body
  /\ fst (getTopcoderMemberId Sample.config e (JStr "alice") Sample.fresh)
     = Return JUndefined.
Proof.
  apply (extracting_operations_return_path Sample.config
           (Sample.env (Sample.answers (JObj [("id", JNum 30054)])) Sample.no_claims)
           Sample.fresh "m2m" {| status := JNum 200; data := JObj [("id", JNum 30054)] |}
           (JStr "p") Sample.challenge (JStr "c1") (JStr "alice"));
    [reflexivity | intros; reflexivity | reflexivity].
Defined.

Lemma void_operations_return_undefined_witness :
  fst (run Sample.config
         (Sample.env (Sample.answers (JObj [("id", JNum 1)])) Sample.no_claims)
         (op_updateChallenge (JStr "c1") (JObj [("name", JStr "n")])) Sample.fresh)
  = Return JUndefined.
Proof.
  apply (void_operations_return_undefined Sample.config
           (Sample.env (Sample.answers (JObj [("id", JNum 1)])) Sample.no_claims)
           (op_updateChallenge (JStr "c1") (JObj [("name", JStr "n")])) Sample.fresh
           "m2m" {| status := JNum 200; data := JObj [("id", JNum 1)] |});
    [reflexivity | intros; reflexivity | reflexivity].
Defined.

Lemma content_type_header_witness :
  let e := Sample.env (Sample.answers (JObj [])) Sample.no_claims in
  exists c,
    calls (snd (run Sample.config e (op_getChallengeById (JStr "c1")) Sample.fresh))
    = [m2m_call Sample.config; HttpCall c]
    /\ lodash_get (call_config c) ["headers"; "Content-Type"] = JUndefined.
Proof.
  apply (content_type_header Sample.config
           (Sample.env (Sample.answers (JObj [])) Sample.no_claims)
           (op_getChallengeById (JStr "c1")) Sample.fresh "m2m");
    reflexivity.
Defined.

Lemma createChallenge_body_over_template_witness :
  let e := Sample.env (Sample.answers (JObj [])) Sample.no_claims in
  exists body,
    calls (snd (createChallenge Sample.config e Sample.challenge Sample.fresh))
    = [m2m_call Sample.config;
       HttpCall (axios_post "https://api.topcoder-dev.com/v5/challenges"
                   (JObj body) (bearer_json_headers "m2m"))]
    /\ assoc "typeId" body = Some (JStr "f2f")
    /\ assoc "name" body = Some (JStr "Fix the login page")
    /\ assoc "description" body = Some (JStr "See the issue")
    /\ assoc "timelineTemplateId" body = Some (JStr "timeline")
    /\ assoc "projectId" body = Some (JNum 7)
    /\ forall k, ~ In k challenge_keys ->
                 assoc k body = assoc k (NEW_CHALLENGE_TEMPLATE Sample.config).
Proof.
  apply (createChallenge_body_over_template Sample.config
           (Sample.env (Sample.answers (JObj [])) Sample.no_claims)
           Sample.challenge Sample.fresh "m2m");
    [reflexivity | reflexivity |].
  simpl. repeat constructor. simpl. tauto.
Defined.

Lemma createChallenge_prizes_in_order_witness :
  let e := Sample.env (Sample.answers (JObj [])) Sample.no_claims in
  exists body sent,
    calls (snd (createChallenge Sample.config e Sample.challenge Sample.fresh))
    = [m2m_call Sample.config;
       HttpCall (axios_post "https://api.topcoder-dev.com/v5/challenges"
                   (JObj body) (bearer_json_headers "m2m"))]
    /\ assoc "prizeSets" body
       = Some (JArr [JObj [("type", JStr "Challenge prizes"); ("prizes", JArr sent)]])
    /\ List.length sent = 2%nat
    /\ forall i prize,
         nth_error [JNum 100; JNum 50] i = Some prize ->
         nth_error sent i = Some (JObj [("type", JStr "money"); ("value", prize)]).
Proof.
  apply (createChallenge_prizes_in_order Sample.config
           (Sample.env (Sample.answers (JObj [])) Sample.no_claims)
           Sample.challenge Sample.fresh "m2m" [JNum 100; JNum 50]);
    reflexivity.
Defined.

Lemma createChallenge_without_prizes_witness :
  let e := Sample.env (Sample.answers (JObj [])) Sample.no_claims in
  exists body,
    calls (snd (createChallenge Sample.config e (JObj [("name", JStr "n")]) Sample.fresh))
    = [m2m_call Sample.config;
       HttpCall (axios_post "https://api.topcoder-dev.com/v5/challenges"
                   (JObj body) (bearer_json_headers "m2m"))]
    /\ assoc "prizeSets" body
       = Some (JArr [JObj [("type", JStr "Challenge prizes"); ("prizes", JArr [])]]).
Proof.
  apply (createChallenge_without_prizes Sample.config
           (Sample.env (Sample.answers (JObj [])) Sample.no_claims)
           (JObj [("name", JStr "n")]) Sample.fresh "m2m");
    reflexivity.
Defined.

Lemma roleAlreadySet_not_an_array_witness :
  let e := Sample.env (Sample.answers (JObj [("message", JStr "not found")]))
             Sample.no_claims in
  exists cause,
    fst (roleAlreadySet Sample.config e (JStr "c1") (JStr "B") Sample.fresh)
    = Throw (convertTopcoderApiError cause "Failed to fetch resource from the challenge.")
    /\ field cause "name" = JStr "TypeError".
Proof.
  apply (roleAlreadySet_not_an_array Sample.config
           (Sample.env (Sample.answers (JObj [("message", JStr "not found")]))
              Sample.no_claims)
           (JStr "c1") (JStr "B") Sample.fresh "m2m"
           {| status := JNum 200; data := JObj [("message", JStr "not found")] |});
    [reflexivity | intros; reflexivity | reflexivity].
Defined.

Lemma roleAlreadySet_null_resource_witness :
  let resources := [JObj [("roleId", JStr "B")]; JNull] in
  let e := Sample.env (Sample.answers (JArr resources)) Sample.no_claims in
  exists cause,
    fst (roleAlreadySet Sample.config e (JStr "c1") (JStr "B") Sample.fresh)
    = Throw (convertTopcoderApiError cause "Failed to fetch resource from the challenge.")
    /\ field cause "name" = JStr "TypeError".
Proof.
  apply (roleAlreadySet_null_resource Sample.config
           (Sample.env (Sample.answers (JArr [JObj [("roleId", JStr "B")]; JNull]))
              Sample.no_claims)
           (JStr "c1") (JStr "B") Sample.fresh "m2m"
           {| status := JNum 200; data := JArr [JObj [("roleId", JStr "B")]; JNull] |}
           [JObj [("roleId", JStr "B")]; JNull]);
    [reflexivity | intros; reflexivity | reflexivity |].
  apply Exists_cons_tl. apply Exists_cons_hd. reflexivity.
Defined.


Lemma getAccessToken_undecodable_token_witness :
  let e := Sample.env (Sample.exchange (JObj [("token", JStr "access")]))
             Sample.no_claims in
  let w := Sample.world (JStr "garbage") 1000 in
  getAccessToken Sample.config e w = (Throw (Error "Invalid token specified"), w)
  /\ forall later,
       cachedAccessToken later = cachedAccessToken w ->
       getAccessToken Sample.config e later
       = (Throw (Error "Invalid token specified"), later).
Proof.
  apply (getAccessToken_undecodable_token Sample.config
           (Sample.env (Sample.exchange (JObj [("token", JStr "access")]))
              Sample.no_claims)
           (Sample.world (JStr "garbage") 1000) (Error "Invalid token specified"));
    reflexivity.
Defined.

Lemma getAccessToken_transport_failure_keeps_cache_witness :
  let e := Sample.env (Sample.fails Sample.network_error)
             (inr (JObj [("iat", JNum 5)])) in
  let w := Sample.world (JStr "stale.jwt") 10 in
  fst (getAccessToken Sample.config e w) = Throw Sample.network_error
  /\ cachedAccessToken (snd (getAccessToken Sample.config e w)) = JStr "stale.jwt".
Proof.
  apply (getAccessToken_transport_failure_keeps_cache Sample.config
           (Sample.env (Sample.fails Sample.network_error)
              (inr (JObj [("iat", JNum 5)])))
           (Sample.world (JStr "stale.jwt") 10) Sample.network_error);
    [reflexivity | left; reflexivity].
Defined.

Lemma getAccessToken_returns_cached_value_witness :
  let e := Sample.env (Sample.exchange (JObj [("token", JStr "access")]))
             Sample.no_claims in
  truthy (JStr "access") = true
  /\ cachedAccessToken (snd (getAccessToken Sample.config e Sample.fresh))
     = JStr "access".
Proof.
  apply (getAccessToken_returns_cached_value Sample.config
           (Sample.env (Sample.exchange (JObj [("token", JStr "access")]))
              Sample.no_claims)
           Sample.fresh
           (snd (getAccessToken Sample.config
                   (Sample.env (Sample.exchange (JObj [("token", JStr "access")]))
                      Sample.no_claims) Sample.fresh))
           (JStr "access")).
  reflexivity.
Defined.

Lemma getAccessToken_second_call_hits_cache_witness :
  let e := Sample.env (Sample.exchange (JObj [("token", JStr "access")]))
             (inr (JObj [("iat", JNum 2000000000000)])) in
  let w1 := snd (getAccessToken Sample.config e Sample.fresh) in
  getAccessToken Sample.config e w1 = (Return (JStr "access"), w1).
Proof.
  apply (getAccessToken_second_call_hits_cache Sample.config
           (Sample.env (Sample.exchange (JObj [("token", JStr "access")]))
              (inr (JObj [("iat", JNum 2000000000000)])))
           Sample.fresh
           (snd (getAccessToken Sample.config
                   (Sample.env (Sample.exchange (JObj [("token", JStr "access")]))
                      (inr (JObj [("iat", JNum 2000000000000)]))) Sample.fresh))
           (snd (getAccessToken Sample.config
                   (Sample.env (Sample.exchange (JObj [("token", JStr "access")]))
                      (inr (JObj [("iat", JNum 2000000000000)]))) Sample.fresh))
           (JStr "access") (JObj [("iat", JNum 2000000000000)]) 2000000000000);
    reflexivity.
Defined.
